(** * proctor-ai python-application: calibration, classification and alert
    de-duplication

    A shallow embedding of the decision logic of
    [face_analyzer.py], [face_analysis_logger.py], [calibration_service.py],
    [calibration_service_optimized.py], [audio_analyzer.py],
    [audio_analyzer_optimized.py] and the endpoints of [main.py], with the
    properties of its calibration thresholds, its classifiers, its alert
    cooldown, its caches and its responses.

    Conventions of the embedding.
    - Python [float] values (timestamps, energies, thresholds) are exact
      rationals [Q] in the general theorems, and the special values numpy
      produces on a zero denominator are modelled ([npfloat]).  The threshold
      and volume calculations are embedded a second time on binary64 floats
      ([Binary64]), to evaluate them with the rounding Python performs.
    - The dictionary [last_alert_state] is a [gmap string AlertState]; a
      method that mutates it takes the map and returns the new one.
    - [datetime.now().timestamp()] is an argument [now] of
      [should_trigger_alert], which reads the clock; a tick of [analyze_frame]
      takes a [clock] that gives the reading inside the call for each alert
      type.
    - What the external libraries compute (decoding, FFT, face detection,
      voice activity) is an input of the function that calls them; a call that
      may raise yields an [outcome].
    - The lock of [face_analysis_logger] is modelled: a call that asks for
      the lock while it is held never ends ([Hangs]). *)

From Stdlib Require Import QArith Qround Qminmax Qabs Lqa String List Bool Arith
  Lia Floats Sorted Permutation.
From stdpp Require Import gmap strings.
Import ListNotations.

Set Warnings "-inexact-float".

Local Open Scope string_scope.
Local Open Scope Q_scope.

(** ** Numbers *)

(** [x < y] on Python floats, as a boolean. *)
Definition Qltb (x y : Q) : bool := negb (Qle_bool y x).

(** The result of a call that either returns or raises [Exception(e)]. *)
Inductive outcome (A : Type) : Type :=
| Returned (a : A)
| Raised (e : string).
Arguments Returned {A} a.
Arguments Raised {A} e.

(** How a call that may take a lock goes: it ends with an outcome, or it
    never ends because it waits for the lock. *)
Inductive run (A : Type) : Type :=
| Ends (o : outcome A)
| Hangs.
Arguments Ends {A} o.
Arguments Hangs {A}.

(** ** numpy, as far as the sources rely on it *)

Module NumPy.

(** A float64 scalar: finite, or one of the special values a division by
    zero produces.  numpy divides without raising (it warns). *)
Inductive npfloat : Type :=
| Fin (q : Q)
| PosInf
| NegInf
| NaN.

(** [x / y] on float64 scalars. *)
Definition divide (x y : Q) : npfloat :=
  if Qeq_bool y 0 then
    if Qeq_bool x 0 then NaN
    else if Qltb 0 x then PosInf else NegInf
  else Fin (x / y).

(** [x > c] for a float64 [x] and a finite [c]; false on [nan]. *)
Definition greater (x : npfloat) (c : Q) : bool :=
  match x with
  | Fin q => Qltb c q
  | PosInf => true
  | NegInf | NaN => false
  end.

Fixpoint insort (x : Q) (l : list Q) : list Q :=
  match l with
  | [] => [x]
  | y :: l' => if Qle_bool x y then x :: l else y :: insort x l'
  end.

Definition sort (a : list Q) : list Q := fold_right insort [] a.

(** [np.percentile(a, q)] with the default linear interpolation: the value
    at the virtual index [q/100 * (n-1)] of the sorted array.  An empty
    array has no percentile. *)
Definition percentile (a : list Q) (q : Q) : option Q :=
  match sort a with
  | [] => None
  | (x0 :: _) as sorted =>
      let n := List.length sorted in
      let virtual_index := q / 100 * (inject_Z (Z.of_nat n) - 1) in
      let previous := Z.to_nat (Qfloor virtual_index) in
      let next := Nat.min (S previous) (n - 1) in
      let gamma := virtual_index - inject_Z (Qfloor virtual_index) in
      Some (nth previous sorted x0
            + (nth next sorted x0 - nth previous sorted x0) * gamma)
  end.

(** [np.sum(a)] *)
Definition sum (a : list Q) : Q := fold_right Qplus 0 a.

(** [np.diff(a)]: [a[i+1] - a[i]]. *)
Fixpoint diff (a : list Q) : list Q :=
  match a with
  | x :: ((y :: _) as a') => (y - x) :: diff a'
  | _ => []
  end.

(** [np.max(a)]; on an empty array it raises [ValueError] ([None]). *)
Definition max (a : list Q) : option Q :=
  match a with
  | [] => None
  | x :: a' => Some (fold_left Qmax a' x)
  end.

(** [np.mean(a)]; on an empty array it is [nan] ([None]). *)
Definition mean (a : list Q) : option Q :=
  match a with
  | [] => None
  | _ :: _ => Some (sum a / inject_Z (Z.of_nat (List.length a)))
  end.

(** [x < c] for a float64 [x] and a finite [c]; false on [nan]. *)
Definition less (x : npfloat) (c : Q) : bool :=
  match x with
  | Fin q => Qltb q c
  | NegInf => true
  | PosInf | NaN => false
  end.

End NumPy.

(** ** Python built-ins, as far as the sources rely on them *)

Module Python.

(** [range(start, stop, step)] for a positive [step] (a zero step raises
    [ValueError]): the values [start + k * step] for [k] below the length of
    the range, which is [(stop - start + step - 1) // step] when that is
    positive and 0 otherwise. *)
Definition range (start stop step : Z) : list Z :=
  List.map (fun k => (start + Z.of_nat k * step)%Z)
           (seq 0 (Z.to_nat ((stop - start + step - 1) / step))).

(** [a[i:j]] for [0 <= i] and [0 <= j]: the elements at the indices from
    [i] to [j - 1] that exist. *)
Definition slice {A : Type} (a : list A) (i j : Z) : list A :=
  firstn (Z.to_nat (j - i)) (skipn (Z.to_nat i) a).

End Python.

(** ** face_analysis_logger.py *)

Module FaceAnalysisLogger.

(** Computations over [self.log_lock = threading.Lock()]: the state is
    [true] while the lock is held.  The lock is not reentrant: acquiring it
    while it is held waits forever, also in the thread that holds it. *)
Definition Logging (A : Type) : Type := bool -> run A * bool.

Definition acquire : Logging unit :=
  fun held => if held then (Hangs, held) else (Ends (Returned tt), true).

(** [with self.log_lock: body]; the lock is released when the body returns
    and when it raises. *)
Definition with_lock {A : Type} (body : Logging A) : Logging A :=
  fun held =>
    match acquire held with
    | (Ends (Returned _), held') =>
        match body held' with
        | (Ends o, _) => (Ends o, false)
        | (Hangs, held'') => (Hangs, held'')
        end
    | (Ends (Raised e), held') => (Ends (Raised e), held')
    | (Hangs, held') => (Hangs, held')
    end.

(** A call of [self.logger.info], [.warning], [.error] or [.debug]. *)
Definition emit : Logging unit := fun held => (Ends (Returned tt), held).

(** [log_analysis_start(self, user_id, frame_size)] *)
Definition log_analysis_start : Logging unit := with_lock emit.

(** [log_error(self, user_id, error_type, error_message)] *)
Definition log_error : Logging unit := with_lock emit.

(** [log_alert_state_change(self, user_id, alert_type, state, ...)] *)
Definition log_alert_state_change : Logging unit := with_lock emit.

(** [log_frame_saved(self, user_id, file_path, violations)]: its message
    takes [os.path.basename(file_path)], which raises on [None]. *)
Definition log_frame_saved (file_path : option string) : Logging unit :=
  with_lock
    (match file_path with
     | Some _ => emit
     | None =>
         fun held =>
           (Ends (Raised
                    "expected str, bytes or os.PathLike object, not NoneType"),
            held)
     end).

(** [log_violation(self, user_id, violations, analysis_data)];
    [_save_violation_log] catches its own exceptions. *)
Definition log_violation : Logging unit := with_lock emit.

(** [log_analysis_complete(self, user_id, processing_time, violations,
    analysis_data)]: inside [with self.log_lock] it calls
    [self.log_violation] when [violations] is not empty. *)
Definition log_analysis_complete (violations : list string) : Logging unit :=
  with_lock
    (match violations with
     | [] => emit
     | _ :: _ => log_violation
     end).

(** [log_database_operation(self, operation, user_id, success, details)] *)
Definition log_database_operation : Logging unit := with_lock emit.

(** [log_reference_face_loaded(self, user_id, face_filename, cached)] *)
Definition log_reference_face_loaded : Logging unit := with_lock emit.

(** [log_service_status(self, status_data)] *)
Definition log_service_status : Logging unit := with_lock emit.

(** The lists [high_severity] and [medium_severity] of
    [_calculate_severity]. *)
Definition high_severity : list string :=
  ["Face mismatch detected"; "Multiple faces found"].

Definition medium_severity : list string :=
  ["Face not detected"; "Face partially blocked"].

(** [v in severity_list] *)
Definition contains (severity_list : list string) (v : string) : bool :=
  existsb (String.eqb v) severity_list.

(** [_calculate_severity(self, violations)] *)
Definition _calculate_severity (violations : list string) : string :=
  if existsb (contains high_severity) violations then "high"
  else if existsb (contains medium_severity) violations then "medium"
  else "low".

End FaceAnalysisLogger.

(** ** face_analyzer.py *)

Module FaceAnalyzer.

(** One entry of [self.last_alert_state]:
    [{"last_time": ..., "active": ...}]. *)
Record AlertState : Type := mkAlertState {
  last_time : Q;
  active : bool
}.

(** [self.ALERT_COOLDOWN = 30  # seconds] *)
Definition ALERT_COOLDOWN : Q := 30.

(** [key = f"{user_id}_{alert_type}"] *)
Definition alert_key (user_id alert_type : string) : string :=
  user_id +:+ "_" +:+ alert_type.

(** [self.last_alert_state.get(key, {"last_time": 0, "active": False})] *)
Definition get_state (last_alert_state : gmap string AlertState)
    (key : string) : AlertState :=
  default (mkAlertState 0 false) (last_alert_state !! key).

(** [should_trigger_alert(self, user_id, alert_type, condition_active)]:
    the returned boolean and the dictionary after the call.  Each branch logs
    through [log_alert_state_change], which takes the free lock and gives it
    back. *)
Definition should_trigger_alert (now : Q) (user_id alert_type : string)
    (condition_active : bool) (last_alert_state : gmap string AlertState)
    : bool * gmap string AlertState :=
  let key := alert_key user_id alert_type in
  let state := get_state last_alert_state key in
  if condition_active then
    if negb (active state) then
      (true, <[key := mkAlertState now true]> last_alert_state)
    else if Qltb ALERT_COOLDOWN (now - last_time state) then
      (true, <[key := mkAlertState now true]> last_alert_state)
    else
      (false, last_alert_state)
  else
    (false, <[key := mkAlertState now false]> last_alert_state).

(** [cleanup_alert_states(self, user_id)]: the keys that start with
    [f"{user_id}_"] are collected and deleted one by one. *)
Definition cleanup_alert_states (user_id : string)
    (last_alert_state : gmap string AlertState) : gmap string AlertState :=
  let keys_to_remove :=
    List.filter (fun key => String.prefix (user_id +:+ "_") key)
                (map_to_list last_alert_state).*1 in
  foldl (fun m key => delete key m) last_alert_state keys_to_remove.

(** *** Frame analysis *)

(** Computations over [self.last_alert_state] that return, raise or hang.
    The dictionary is mutated in place, so the mutations made before a raise
    or a hang are kept. *)
Definition Exec (A : Type) : Type :=
  gmap string AlertState -> run A * gmap string AlertState.

Definition ret {A : Type} (a : A) : Exec A := fun s => (Ends (Returned a), s).

Definition raise {A : Type} (e : string) : Exec A :=
  fun s => (Ends (Raised e), s).

Definition bind {A B : Type} (c : Exec A) (k : A -> Exec B) : Exec B :=
  fun s =>
    match c s with
    | (Ends (Returned a), s') => k a s'
    | (Ends (Raised e), s') => (Ends (Raised e), s')
    | (Hangs, s') => (Hangs, s')
    end.

(** [try: c  except Exception as e: handler(e)] *)
Definition try_except {A : Type} (c : Exec A) (handler : string -> Exec A)
    : Exec A :=
  fun s =>
    match c s with
    | (Ends (Returned a), s') => (Ends (Returned a), s')
    | (Ends (Raised e), s') => handler e s'
    | (Hangs, s') => (Hangs, s')
    end.

(** A call of a method of [face_analysis_logger].  Every method gives the
    lock back when it returns or raises, and nothing else takes it, so the
    call starts with the lock free. *)
Definition logger {A : Type} (c : FaceAnalysisLogger.Logging A) : Exec A :=
  fun s => (fst (c false), s).

(** A call into an external library, with the outcome it has on this frame. *)
Definition external {A : Type} (o : outcome A) : Exec A :=
  fun s => (Ends o, s).

(** [self.should_trigger_alert(user_id, alert_type, condition_active)]
    called at clock reading [now]. *)
Definition alert (now : Q) (user_id alert_type : string)
    (condition_active : bool) : Exec bool :=
  fun s =>
    let r := should_trigger_alert now user_id alert_type condition_active s in
    (Ends (Returned (fst r)), snd r).

Notation "x <- c ;; k" := (bind c (fun x => k))
  (at level 62, c at next level, right associativity).

(** What the external collaborators yield for one frame. *)
Record FrameObservation : Type := mkFrame {
  (** [np.frombuffer] and [cv2.imdecode]: [Returned false] when
      [image is None], [Returned true] for an image. *)
  decoded : outcome bool;
  (** [cv2.cvtColor] and [face_recognition.face_locations]:
      [len(face_locations)]. *)
  face_locations : outcome nat;
  (** [face_recognition.face_landmarks]: for each face
      [(len(lm.get("left_eye", [])), len(lm.get("right_eye", [])))]. *)
  face_landmarks : outcome (list (nat * nat));
  (** [self.get_reference_face(user_id) is not None]. *)
  reference_found : bool;
  (** [face_recognition.face_encodings] then [face_distance]: [None] when
      no encoding is returned for the frame's first face. *)
  face_match : outcome (option Q);
  (** [self._save_violation_frame]: the path, [None] when writing failed. *)
  saved_path : option string
}.

(** The dictionary [analysis_data]. *)
Record AnalysisData : Type := mkData {
  total_faces_detected : nat;
  face_mismatch : bool;
  face_not_detected : bool;
  multiple_faces : bool;
  face_partially_blocked : bool;
  head_turns : bool;
  eye_gaze_off : bool;
  face_distance : option Q
}.

(** The three dictionaries [analyze_frame] returns. *)
Inductive Result : Type :=
| DecodeError
| Success (user_id : string) (violations : list string)
          (analysis_data : AnalysisData) (frame_saved : bool)
          (saved_file_path : option string)
| Failure (user_id : string) (error : string).

Definition status (r : Result) : string :=
  match r with
  | Success _ _ _ _ _ => "success"
  | DecodeError | Failure _ _ => "error"
  end.

Definition violations (r : Result) : list string :=
  match r with
  | Success _ v _ _ _ => v
  | DecodeError | Failure _ _ => []
  end.

(** The local variables [violations] and [analysis_data]. *)
Definition Locals : Type := (list string * AnalysisData)%type.

Definition set_face_not_detected (d : AnalysisData) : AnalysisData :=
  mkData (total_faces_detected d) (face_mismatch d) true (multiple_faces d)
         (face_partially_blocked d) (head_turns d) (eye_gaze_off d)
         (face_distance d).

Definition set_multiple_faces (d : AnalysisData) : AnalysisData :=
  mkData (total_faces_detected d) (face_mismatch d) (face_not_detected d)
         true (face_partially_blocked d) (head_turns d) (eye_gaze_off d)
         (face_distance d).

Definition set_face_partially_blocked (d : AnalysisData) : AnalysisData :=
  mkData (total_faces_detected d) (face_mismatch d) (face_not_detected d)
         (multiple_faces d) true (head_turns d) (eye_gaze_off d)
         (face_distance d).

Definition set_face_mismatch (d : AnalysisData) : AnalysisData :=
  mkData (total_faces_detected d) true (face_not_detected d)
         (multiple_faces d) (face_partially_blocked d) (head_turns d)
         (eye_gaze_off d) (face_distance d).

Definition set_face_distance (x : Q) (d : AnalysisData) : AnalysisData :=
  mkData (total_faces_detected d) (face_mismatch d) (face_not_detected d)
         (multiple_faces d) (face_partially_blocked d) (head_turns d)
         (eye_gaze_off d) (Some x).

(** [if self.should_trigger_alert(user_id, name, True):
       violations.append(name); analysis_data[...] = True] *)
Definition report (clock : string -> Q) (user_id name : string)
    (set : AnalysisData -> AnalysisData) (l : Locals) : Exec Locals :=
  fired <- alert (clock name) user_id name true ;;
  ret (if fired : bool then ((fst l ++ [name])%list, set (snd l)) else l).

(** [self.should_trigger_alert(user_id, name, False)] *)
Definition resolve (clock : string -> Q) (user_id name : string) (l : Locals)
    : Exec Locals :=
  _ <- alert (clock name) user_id name false ;;
  ret l.

(** The body of the [try] of [analyze_frame]. *)
Definition analyze_frame_body (clock : string -> Q)
    (frame : FrameObservation)
    (user_id : string) : Exec Result :=
  _ <- logger FaceAnalysisLogger.log_analysis_start ;;
  image <- external (decoded frame) ;;
  if negb image then
    _ <- logger FaceAnalysisLogger.log_error ;;
    ret DecodeError
  else
    n <- external (face_locations frame) ;;
    landmarks <- external (face_landmarks frame) ;;
    let l0 : Locals :=
      ([], mkData n false false false false false false None) in
    l <- (if Nat.eqb n 0 then
            report clock user_id "Face not detected" set_face_not_detected l0
          else
            l1 <- resolve clock user_id "Face not detected" l0 ;;
            l2 <- (if Nat.ltb 1 n then
                     report clock user_id "Multiple faces found"
                            set_multiple_faces l1
                   else resolve clock user_id "Multiple faces found" l1) ;;
            if Nat.ltb 0 n then
              l3 <- match landmarks with
                    | face_landmark :: _ =>
                        if Nat.ltb (fst face_landmark) 6
                           || Nat.ltb (snd face_landmark) 6 then
                          report clock user_id "Face partially blocked"
                                 set_face_partially_blocked l2
                        else resolve clock user_id "Face partially blocked" l2
                    | [] => ret l2
                    end ;;
              if reference_found frame then
                try_except
                  (face_encodings <- external (face_match frame) ;;
                   match face_encodings with
                   | Some distance =>
                       l4 <- (if Qltb 0.6 distance then
                                report clock user_id "Face mismatch detected"
                                       set_face_mismatch l3
                              else
                                resolve clock user_id "Face mismatch detected"
                                        l3) ;;
                       ret (fst l4, set_face_distance distance (snd l4))
                   | None => ret l3
                   end)
                  (fun _ => ret l3)
              else ret l3
            else ret l2) ;;
    let should_save := negb (Nat.eqb (List.length (fst l)) 0) in
    saved_file_path <- (if should_save then
                          _ <- logger (FaceAnalysisLogger.log_frame_saved
                                         (saved_path frame)) ;;
                          ret (saved_path frame)
                        else ret None) ;;
    _ <- logger (FaceAnalysisLogger.log_analysis_complete (fst l)) ;;
    ret (Success user_id (fst l) (snd l) should_save saved_file_path).

(** [analyze_frame(self, frame_data, user_id)] *)
Definition analyze_frame (clock : string -> Q)
    (frame : FrameObservation)
    (user_id : string) : Exec Result :=
  try_except (analyze_frame_body clock frame user_id)
             (fun e => ret (Failure user_id e)).

(** *** Reference faces and status *)

(** A face encoding, the vector [face_recognition.face_encodings] returns,
    and a decoded image. *)
Definition Encoding : Type := list Q.
Definition Image : Type := list (list Z).

(** What the database and the image store yield for a reference lookup. *)
Record ReferenceSource : Type := mkReferenceSource {
  (** [self.get_db_connection()]: [false] for [None]; it catches the errors
      of [psycopg2.connect]. *)
  connection : bool;
  (** The query on [VerificationSession] and [cursor.fetchone()]: no row
      ([None]), or the row's [face_filename], which may be NULL. *)
  verified_session : outcome (option (option string));
  (** [self._load_reference_image(face_filename)], which catches its
      exceptions and returns [None]. *)
  _load_reference_image : string -> option Image;
  (** [self._get_face_encoding(image)], which catches its exceptions and
      returns [None]. *)
  _get_face_encoding : Image -> option Encoding
}.

(** [get_reference_face(self, user_id)]: the encoding it returns and
    [self.reference_cache] after the call.  Its logging calls return, and an
    exception of the query is caught by the method, which returns [None]. *)
Definition get_reference_face (db : ReferenceSource) (user_id : string)
    (reference_cache : gmap string Encoding)
    : option Encoding * gmap string Encoding :=
  match reference_cache !! user_id with
  | Some cached => (Some cached, reference_cache)
  | None =>
      if negb (connection db) then (None, reference_cache)
      else
        match verified_session db with
        | Returned (Some (Some face_filename)) =>
            if String.eqb face_filename "" then (None, reference_cache)
            else
              match _load_reference_image db face_filename with
              | None => (None, reference_cache)
              | Some reference_image =>
                  match _get_face_encoding db reference_image with
                  | Some face_encoding =>
                      (Some face_encoding,
                       <[user_id := face_encoding]> reference_cache)
                  | None => (None, reference_cache)
                  end
              end
        | Returned (Some None) | Returned None => (None, reference_cache)
        | Raised _ => (None, reference_cache)
        end
  end.

(** The dictionary [get_status] returns, without its timestamp. *)
Record Status : Type := mkStatus {
  cached_references : nat;
  active_alerts : nat;
  total_alert_states : nat;
  cooldown_seconds : Q
}.

(** [get_status(self)] *)
Definition get_status (reference_cache : gmap string Encoding)
    (last_alert_state : gmap string AlertState) : Status :=
  mkStatus (size reference_cache)
           (List.length
              (List.filter active (map_to_list last_alert_state).*2))
           (size last_alert_state)
           ALERT_COOLDOWN.

End FaceAnalyzer.

(** ** calibration_service.py and calibration_service_optimized.py *)

(** The entries of [noise_analysis] that the threshold calculation reads. *)
Record NoiseAnalysis : Type := mkNoise {
  rms_energy : Q;
  noise_floor : Q;
  noise_ceiling : Q
}.

(** The dictionary ["thresholds"]. *)
Record Thresholds : Type := mkThresholds {
  low : Q;
  medium : Q;
  high : Q;
  thresholds_noise_floor : Q;
  thresholds_noise_ceiling : Q
}.

Module CalibrationService.

(** [_analyze_background_noise], from the list [frame_energies] its loop
    over 100 ms frames builds; [rms_energy] is the clip's RMS.  On an empty
    list [np.percentile] raises (numpy 1.22 and later), and the method
    re-raises. *)
Definition _analyze_background_noise (rms : Q) (frame_energies : list Q)
    : outcome NoiseAnalysis :=
  match NumPy.percentile frame_energies 10,
        NumPy.percentile frame_energies 90 with
  | Some floor, Some ceiling => Returned (mkNoise rms floor ceiling)
  | _, _ => Raised "index -1 is out of bounds for axis 0 with size 0"
  end.

(** [_calculate_thresholds(self, noise_analysis)] *)
Definition _calculate_thresholds (noise_analysis : NoiseAnalysis)
    : Thresholds :=
  let noise_floor := noise_floor noise_analysis in
  let noise_ceiling := noise_ceiling noise_analysis in
  let low_threshold := noise_floor * 2.0 in
  let medium_threshold := noise_floor + (noise_ceiling - noise_floor) * 0.6 in
  let high_threshold := noise_ceiling * 1.5 in
  let min_separation := 0.01 in
  let medium_threshold :=
    if Qltb (medium_threshold - low_threshold) min_separation
    then low_threshold + min_separation else medium_threshold in
  let high_threshold :=
    if Qltb (high_threshold - medium_threshold) min_separation
    then medium_threshold + min_separation else high_threshold in
  mkThresholds low_threshold medium_threshold high_threshold
               noise_floor noise_ceiling.

(** [calibrate]: the ["thresholds"] entry of its result; any exception is
    re-raised as [Exception("Calibration failed: ...")]. *)
Definition calibrate (rms : Q) (frame_energies : list Q)
    : outcome Thresholds :=
  match _analyze_background_noise rms frame_energies with
  | Returned noise_analysis => Returned (_calculate_thresholds noise_analysis)
  | Raised e => Raised ("Calibration failed: " +:+ e)
  end.

(** The list [frame_energies] that the loop of [_analyze_background_noise]
    builds over frames of 100 ms: [frame_length = int(0.1 * sample_rate)],
    which is [sample_rate // 10], and [frame_energy] stands for
    [np.sqrt(np.mean(frame**2))]. *)
Definition frame_energies (frame_energy : list Q -> Q) (audio_array : list Q)
    (sample_rate : Z) : list Q :=
  let frame_length := (sample_rate / 10)%Z in
  List.map
    (fun i => frame_energy (Python.slice audio_array i (i + frame_length)))
    (Python.range 0 (Z.of_nat (List.length audio_array) - frame_length)
                  frame_length).

(** The entry ["frequency_band_energies"] of the noise analysis:
    [(low, mid, high)], each [band / total_energy if total_energy > 0
    else 0]. *)
Definition frequency_band_energies (low_energy mid_energy high_energy : Q)
    : Q * Q * Q :=
  let total_energy := low_energy + mid_energy + high_energy in
  ((if Qltb 0 total_energy then low_energy / total_energy else 0),
   (if Qltb 0 total_energy then mid_energy / total_energy else 0),
   (if Qltb 0 total_energy then high_energy / total_energy else 0)).

End CalibrationService.

Module OptimizedCalibrationService.

(** [_fast_noise_analysis], from the list [frame_energies] its loop over
    overlapping 200 ms frames builds. *)
Definition _fast_noise_analysis (rms : Q) (frame_energies : list Q)
    : outcome NoiseAnalysis :=
  match NumPy.percentile frame_energies 10,
        NumPy.percentile frame_energies 90 with
  | Some floor, Some ceiling => Returned (mkNoise rms floor ceiling)
  | _, _ => Raised "index -1 is out of bounds for axis 0 with size 0"
  end.

(** [_fast_calculate_thresholds(self, noise_analysis)] *)
Definition _fast_calculate_thresholds (noise_analysis : NoiseAnalysis)
    : Thresholds :=
  let noise_floor := noise_floor noise_analysis in
  let noise_ceiling := noise_ceiling noise_analysis in
  let low_threshold := noise_floor * 2.0 in
  let medium_threshold := noise_floor + (noise_ceiling - noise_floor) * 0.6 in
  let high_threshold := noise_ceiling * 1.5 in
  let min_separation := 0.001 in
  let medium_threshold :=
    if Qltb (medium_threshold - low_threshold) min_separation
    then low_threshold + min_separation else medium_threshold in
  let high_threshold :=
    if Qltb (high_threshold - medium_threshold) min_separation
    then medium_threshold + min_separation else high_threshold in
  mkThresholds low_threshold medium_threshold high_threshold
               noise_floor noise_ceiling.

(** [calibrate]: the ["thresholds"] entry of its result; any exception is
    re-raised as [Exception("Optimized calibration failed: ...")]. *)
Definition calibrate (rms : Q) (frame_energies : list Q)
    : outcome Thresholds :=
  match _fast_noise_analysis rms frame_energies with
  | Returned noise_analysis =>
      Returned (_fast_calculate_thresholds noise_analysis)
  | Raised e => Raised ("Optimized calibration failed: " +:+ e)
  end.

(** The list [frame_energies] that the loop of [_fast_noise_analysis]
    builds: frames of 200 ms ([frame_length = int(0.2 * sample_rate)], which
    is [sample_rate // 5]) taken every [step_size = frame_length // 2]
    samples. *)
Definition frame_energies (frame_energy : list Q -> Q) (audio_array : list Q)
    (sample_rate : Z) : list Q :=
  let frame_length := (sample_rate / 5)%Z in
  let step_size := (frame_length / 2)%Z in
  List.map
    (fun i => frame_energy (Python.slice audio_array i (i + frame_length)))
    (Python.range 0 (Z.of_nat (List.length audio_array) - frame_length)
                  step_size).

(** The entry ["frequency_band_energies"] of the noise analysis. *)
Definition frequency_band_energies (low_energy mid_energy high_energy : Q)
    : Q * Q * Q :=
  let total_energy := low_energy + mid_energy + high_energy in
  ((if Qltb 0 total_energy then low_energy / total_energy else 0),
   (if Qltb 0 total_energy then mid_energy / total_energy else 0),
   (if Qltb 0 total_energy then high_energy / total_energy else 0)).

End OptimizedCalibrationService.

(** ** audio_analyzer.py and audio_analyzer_optimized.py *)

(** The strings ["low"], ["medium"], ["high"] of [volume_level]. *)
Inductive VolumeLevel : Type := Low | Medium | High.

Definition volume_level (v : VolumeLevel) : string :=
  match v with
  | Low => "low"
  | Medium => "medium"
  | High => "high"
  end.

(** The order low < medium < high of the levels. *)
Definition level_rank (v : VolumeLevel) : nat :=
  match v with
  | Low => 0
  | Medium => 1
  | High => 2
  end.

(** The loop of [_detect_speech] and [_fast_detect_speech] over the verdicts
    of [self.vad.is_speech] for the successive frames:
    [(speech_frames, total_frames)]. *)
Definition count_frames (verdicts : list bool) : nat * nat :=
  fold_left (fun counters (is_speech : bool) =>
               ((if is_speech then S (fst counters) else fst counters),
                S (snd counters)))
            verdicts (0%nat, 0%nat).

Definition Qnat (n : nat) : Q := inject_Z (Z.of_nat n).

Module AudioAnalyzer.

(** [_analyze_volume], from [rms_energy] and
    [calibration_data["thresholds"]]. *)
Definition _analyze_volume (rms_energy : Q) (thresholds : Thresholds)
    : VolumeLevel :=
  if Qltb rms_energy (low thresholds) then Low
  else if Qltb rms_energy (medium thresholds) then Medium
  else High.

(** [_detect_speech], from the verdicts of the voice-activity detector; a
    raise of the decoder or of the detector is caught and gives [False]. *)
Definition _detect_speech (verdicts : outcome (list bool)) : bool :=
  match verdicts with
  | Returned verdicts =>
      let counters := count_frames verdicts in
      let speech_frames := fst counters in
      let total_frames := snd counters in
      let speech_ratio :=
        if Nat.ltb 0 total_frames
        then Qnat speech_frames / Qnat total_frames else 0 in
      Qltb 0.3 speech_ratio
  | Raised _ => false
  end.

(** [_detect_phone_frequencies], from [(voice_energy, total_energy)] of
    the spectrum; a raise of the spectral analysis gives [False]. *)
Definition _detect_phone_frequencies (spectrum : outcome (Q * Q)) : bool :=
  match spectrum with
  | Returned (voice_energy, total_energy) =>
      if Qltb 0 total_energy
      then Qltb 0.7 (voice_energy / total_energy) else false
  | Raised _ => false
  end.

(** The loop of [_detect_speech] over [raw_audio], the 16-bit mono samples
    at 16 kHz as bytes: [frame_size = int(16000 * 20 / 1000) = 320] samples,
    so a frame is 640 bytes; the verdict of [self.vad.is_speech] is taken for
    each slice that has the full length. *)
Definition vad_verdicts {A : Type} (is_speech : list A -> bool)
    (raw_audio : list A) : list bool :=
  let frame_size := 320%Z in
  List.map is_speech
    (List.filter
       (fun frame =>
          Z.eqb (Z.of_nat (List.length frame)) (frame_size * 2))
       (List.map (fun i => Python.slice raw_audio i (i + frame_size * 2))
                 (Python.range 0
                    (Z.of_nat (List.length raw_audio) - frame_size * 2)
                    (frame_size * 2)))).

(** The list [energy] of [_detect_sudden_onset]: [np.sum(frame**2)] over
    frames of 2048 samples taken every 512 samples. *)
Definition energy_envelope (audio_array : list Q) : list Q :=
  let hop_length := 512%Z in
  let frame_length := 2048%Z in
  List.map
    (fun i =>
       NumPy.sum
         (List.map (fun x => x * x)
                   (Python.slice audio_array i (i + frame_length))))
    (Python.range 0 (Z.of_nat (List.length audio_array) - frame_length)
                  hop_length).

(** [_detect_sudden_onset(self, audio_array)]; an exception is caught and
    gives [False]. *)
Definition _detect_sudden_onset (audio_array : list Q) : bool :=
  let energy := energy_envelope audio_array in
  if Nat.ltb 2 (List.length energy) then
    let energy_diff := NumPy.diff energy in
    match NumPy.max energy_diff,
          NumPy.mean (List.map Qabs energy_diff) with
    | Some max_diff, Some mean_diff => Qltb (3 * mean_diff) max_diff
    | _, _ => false
    end
  else false.

(** [_detect_background_sounds], from what its helpers yield:
    [(spectral_centroid, spectral_rolloff, zero_crossing_rate)], where the
    centroid is [nan] for a clip with a silent frame, and the spectrum read
    by [_detect_phone_frequencies].  A raise of the three feature
    calculations is caught before any label is appended. *)
Definition _detect_background_sounds
    (features : outcome (NumPy.npfloat * Q * Q))
    (spectrum : outcome (Q * Q)) (audio_array : list Q) : list string :=
  match features with
  | Returned (spectral_centroid, spectral_rolloff, zero_crossing_rate) =>
      let detected_sounds := [] in
      let detected_sounds :=
        if Qltb 0.1 zero_crossing_rate
           && (NumPy.greater spectral_centroid 1000
               && NumPy.less spectral_centroid 4000)
        then (detected_sounds ++ ["typing"])%list else detected_sounds in
      let detected_sounds :=
        if _detect_phone_frequencies spectrum
        then (detected_sounds ++ ["phone"])%list else detected_sounds in
      let detected_sounds :=
        if NumPy.less spectral_centroid 500
           && _detect_sudden_onset audio_array
        then (detected_sounds ++ ["door"])%list else detected_sounds in
      if Qltb 0.8 spectral_rolloff && Qltb 0.05 zero_crossing_rate
      then (detected_sounds ++ ["mechanical"])%list else detected_sounds
  | Raised _ => []
  end.

End AudioAnalyzer.

Module OptimizedAudioAnalyzer.

(** [_fast_analyze_volume] *)
Definition _fast_analyze_volume (rms_energy : Q) (thresholds : Thresholds)
    : VolumeLevel :=
  if Qltb rms_energy (low thresholds) then Low
  else if Qltb rms_energy (medium thresholds) then Medium
  else High.

(** [_fast_detect_speech] *)
Definition _fast_detect_speech (verdicts : outcome (list bool)) : bool :=
  match verdicts with
  | Returned verdicts =>
      let counters := count_frames verdicts in
      let speech_frames := fst counters in
      let total_frames := snd counters in
      let speech_ratio :=
        if Nat.ltb 0 total_frames
        then Qnat speech_frames / Qnat total_frames else 0 in
      Qltb 0.3 speech_ratio
  | Raised _ => false
  end.

(** The sums [_fast_detect_background_sounds] takes from the FFT of the
    clip: the energy of the three bands, [np.sum(np.abs(frequencies) *
    magnitude)], and the zero-crossing rate. *)
Record Spectrum : Type := mkSpectrum {
  low_energy : Q;
  mid_energy : Q;
  high_energy : Q;
  weighted_frequency : Q;
  zcr : Q
}.

Definition total_energy (f : Spectrum) : Q :=
  low_energy f + mid_energy f + high_energy f.

(** [spectral_centroid], guarded by [if total_energy > 0]. *)
Definition spectral_centroid (f : Spectrum) : Q :=
  if Qltb 0 (total_energy f)
  then weighted_frequency f / total_energy f else 0.

(** The four rules, in the order the source appends their labels.  The
    three ratios are divided without a guard. *)
Definition typing_rule (f : Spectrum) : bool :=
  Qltb 0.1 (zcr f)
  && (Qltb 1000 (spectral_centroid f) && Qltb (spectral_centroid f) 4000).

Definition phone_rule (f : Spectrum) : bool :=
  NumPy.greater (NumPy.divide (mid_energy f) (total_energy f)) 0.7.

Definition door_rule (f : Spectrum) : bool :=
  Qltb (spectral_centroid f) 500
  && NumPy.greater (NumPy.divide (low_energy f) (total_energy f)) 0.6.

Definition mechanical_rule (f : Spectrum) : bool :=
  Qltb 0.05 (zcr f)
  && NumPy.greater (NumPy.divide (mid_energy f) (total_energy f)) 0.5.

Definition append_if (b : bool) (label : string) (detected : list string)
    : list string :=
  if b then (detected ++ [label])%list else detected.

(** [_fast_detect_background_sounds]; a raise of the FFT is caught and
    leaves [detected_sounds] empty. *)
Definition _fast_detect_background_sounds (features : outcome Spectrum)
    : list string :=
  match features with
  | Returned f =>
      let detected_sounds := [] in
      let detected_sounds :=
        append_if (typing_rule f) "typing" detected_sounds in
      let detected_sounds :=
        append_if (phone_rule f) "phone" detected_sounds in
      let detected_sounds :=
        append_if (door_rule f) "door" detected_sounds in
      append_if (mechanical_rule f) "mechanical" detected_sounds
  | Raised _ => []
  end.

(** The loop of [_fast_detect_speech] over [raw_audio]:
    [step_size = frame_size * 2] bytes. *)
Definition vad_verdicts {A : Type} (is_speech : list A -> bool)
    (raw_audio : list A) : list bool :=
  let frame_size := 320%Z in
  let step_size := (frame_size * 2)%Z in
  List.map is_speech
    (List.filter
       (fun frame =>
          Z.eqb (Z.of_nat (List.length frame)) (frame_size * 2))
       (List.map (fun i => Python.slice raw_audio i (i + frame_size * 2))
                 (Python.range 0
                    (Z.of_nat (List.length raw_audio) - frame_size * 2)
                    step_size))).

(** What the decoders yield for one clip: [rms_energy] of the array that
    [_fast_bytes_to_audio] returns, the verdicts of the voice-activity
    detector on the clip as [pydub] decodes it, and the sums of its FFT. *)
Record Clip : Type := mkClip {
  clip_rms_energy : Q;
  clip_verdicts : outcome (list bool);
  clip_features : outcome Spectrum
}.

(** The entries of the dictionary [analyze] returns that the server reads. *)
Record Analysis : Type := mkAnalysis {
  analysis_volume_level : VolumeLevel;
  human_speech_detected : bool;
  suspicious_sounds_detected : bool;
  detected_background_sounds : list string
}.

(** [analyze(self, audio_data, calibration_data)], from
    [calibration_data["thresholds"]]; when [_fast_bytes_to_audio] raises,
    [analyze] logs and re-raises. *)
Definition analyze (clip : outcome Clip) (thresholds : Thresholds)
    : outcome Analysis :=
  match clip with
  | Returned c =>
      let volume_level := _fast_analyze_volume (clip_rms_energy c) thresholds in
      let speech_detected := _fast_detect_speech (clip_verdicts c) in
      let background_sounds :=
        _fast_detect_background_sounds (clip_features c) in
      let suspicious_sounds_detected :=
        Nat.ltb 0 (List.length background_sounds) in
      Returned (mkAnalysis volume_level speech_detected
                           suspicious_sounds_detected background_sounds)
  | Raised e => Raised e
  end.

End OptimizedAudioAnalyzer.

(** ** The threshold and volume calculations on binary64 *)

(** The same methods on IEEE 754 binary64 with rounding to nearest, as Python
    evaluates them; a decimal literal stands for the nearest binary64 value,
    as in the source. *)
Module Binary64.

(** The entries ["low"], ["medium"], ["high"] of the thresholds. *)
Record Thresholds : Type := mkThresholds {
  low : float;
  medium : float;
  high : float
}.

(** [CalibrationService._calculate_thresholds] *)
Definition _calculate_thresholds (noise_floor noise_ceiling : float)
    : Thresholds :=
  let low_threshold := (noise_floor * 2.0)%float in
  let medium_threshold :=
    (noise_floor + (noise_ceiling - noise_floor) * 0.6)%float in
  let high_threshold := (noise_ceiling * 1.5)%float in
  let min_separation := 0.01%float in
  let medium_threshold :=
    if (medium_threshold - low_threshold <? min_separation)%float
    then (low_threshold + min_separation)%float else medium_threshold in
  let high_threshold :=
    if (high_threshold - medium_threshold <? min_separation)%float
    then (medium_threshold + min_separation)%float else high_threshold in
  mkThresholds low_threshold medium_threshold high_threshold.

(** [OptimizedCalibrationService._fast_calculate_thresholds] *)
Definition _fast_calculate_thresholds (noise_floor noise_ceiling : float)
    : Thresholds :=
  let low_threshold := (noise_floor * 2.0)%float in
  let medium_threshold :=
    (noise_floor + (noise_ceiling - noise_floor) * 0.6)%float in
  let high_threshold := (noise_ceiling * 1.5)%float in
  let min_separation := 0.001%float in
  let medium_threshold :=
    if (medium_threshold - low_threshold <? min_separation)%float
    then (low_threshold + min_separation)%float else medium_threshold in
  let high_threshold :=
    if (high_threshold - medium_threshold <? min_separation)%float
    then (medium_threshold + min_separation)%float else high_threshold in
  mkThresholds low_threshold medium_threshold high_threshold.

(** [_analyze_volume] and [_fast_analyze_volume] *)
Definition _analyze_volume (rms_energy : float) (thresholds : Thresholds)
    : VolumeLevel :=
  if (rms_energy <? low thresholds)%float then Low
  else if (rms_energy <? medium thresholds)%float then Medium
  else High.

End Binary64.

(** ** main.py *)

Module Main.

(** What a request gets: the JSON body the endpoint returns, with status
    200, or the [HTTPException] it raises, of which the status code is kept
    and the detail text is not. *)
Inductive Response (A : Type) : Type :=
| OK (body : A)
| HTTPException (status_code : nat).
Arguments OK {A} body.
Arguments HTTPException {A} status_code.

(** What the [try] block of an endpoint comes to: its return value, or the
    exception raised in it, an [HTTPException] or any other. *)
Inductive exn : Type :=
| HTTPError (status_code : nat)
| Error (message : string).

Inductive attempt (A : Type) : Type :=
| Done (a : A)
| Fails (e : exn).
Arguments Done {A} a.
Arguments Fails {A} e.

(** [except Exception as e: raise HTTPException(status_code=500, ...)];
    [HTTPException] is a subclass of [Exception]. *)
Definition internal_error_on_exception {A : Type} (body : attempt A)
    : Response A :=
  match body with
  | Done a => OK a
  | Fails _ => HTTPException 500
  end.

(** [not f.content_type or not f.content_type.startswith(kind)] *)
Definition invalid_content_type (kind : string) (content_type : option string)
    : bool :=
  match content_type with
  | None => true
  | Some c => String.eqb c "" || negb (String.prefix kind c)
  end.

(** [POST /calibrate], from the outcome of
    [calibration_service.calibrate(audio_data)]: the response, and the
    global [calibration_data] after the request. *)
Definition calibrate_audio (content_type : option string)
    (calibration : outcome Thresholds) (calibration_data : option Thresholds)
    : Response Thresholds * option Thresholds :=
  let body :=
    if invalid_content_type "audio/" content_type
    then Fails (HTTPError 400)
    else
      match calibration with
      | Returned calibration_result => Done calibration_result
      | Raised e => Fails (Error e)
      end in
  match body with
  | Done calibration_result =>
      (OK calibration_result, Some calibration_result)
  | Fails _ => (internal_error_on_exception body, calibration_data)
  end.

(** The body [POST /analyze] returns. *)
Record AnalyzeBody : Type := mkAnalyzeBody {
  analysis : OptimizedAudioAnalyzer.Analysis;
  file_saved : bool;
  saved_file_path : option string
}.

(** [POST /analyze], from the clip and the outcome of
    [audio_analyzer.save_audio_file]. *)
Definition analyze_audio (calibration_data : option Thresholds)
    (content_type : option string)
    (clip : outcome OptimizedAudioAnalyzer.Clip)
    (save_audio_file : outcome string) : Response AnalyzeBody :=
  internal_error_on_exception
    (match calibration_data with
     | None => Fails (HTTPError 400)
     | Some thresholds =>
         if invalid_content_type "audio/" content_type
         then Fails (HTTPError 400)
         else
           match OptimizedAudioAnalyzer.analyze clip thresholds with
           | Raised e => Fails (Error e)
           | Returned analysis_result =>
               let should_save :=
                 match OptimizedAudioAnalyzer.analysis_volume_level
                         analysis_result with
                 | High => true
                 | Low | Medium => false
                 end
                 || OptimizedAudioAnalyzer.human_speech_detected
                      analysis_result
                 || OptimizedAudioAnalyzer.suspicious_sounds_detected
                      analysis_result in
               if should_save then
                 match save_audio_file with
                 | Returned filepath =>
                     Done (mkAnalyzeBody analysis_result should_save
                                         (Some filepath))
                 | Raised e => Fails (Error e)
                 end
               else Done (mkAnalyzeBody analysis_result should_save None)
           end
     end).

(** How a request to [POST /analyze-face] ends: with a response, or never,
    when the analysis hangs. *)
Inductive Served (A : Type) : Type :=
| Responds (r : Response A)
| NeverResponds.
Arguments Responds {A} r.
Arguments NeverResponds {A}.

(** [POST /analyze-face]: the response and [last_alert_state] after the
    request. *)
Definition analyze_face (content_type : option string) (clock : string -> Q)
    (frame : FaceAnalyzer.FrameObservation) (user_id : string)
    (last_alert_state : gmap string FaceAnalyzer.AlertState)
    : Served FaceAnalyzer.Result * gmap string FaceAnalyzer.AlertState :=
  if invalid_content_type "image/" content_type
  then (Responds (internal_error_on_exception (Fails (HTTPError 400))),
        last_alert_state)
  else
    match FaceAnalyzer.analyze_frame clock frame user_id last_alert_state with
    | (Ends (Returned analysis_result), last_alert_state') =>
        (Responds (internal_error_on_exception (Done analysis_result)),
         last_alert_state')
    | (Ends (Raised e), last_alert_state') =>
        (Responds (internal_error_on_exception (Fails (Error e))),
         last_alert_state')
    | (Hangs, last_alert_state') => (NeverResponds, last_alert_state')
    end.

End Main.

(** ** The specification's state machine and tick summary *)

(** The cooldown state machine of the specification (section 4.6), in its
    words: a track is Inactive, or Active with its [lastTriggerTime]; a true
    condition on an Inactive track emits and activates it at [now]; on an
    Active track it emits and restarts the cooldown when
    [now - lastTriggerTime > cooldownPeriod], and is suppressed otherwise; a
    false condition never emits and leaves the track Inactive. *)
Module AlertDeduplicator.

Inductive TrackState : Type :=
| Inactive
| Active (lastTriggerTime : Q).

Definition step (cooldownPeriod now : Q) (conditionActive : bool)
    (s : TrackState) : bool * TrackState :=
  if conditionActive then
    match s with
    | Inactive => (true, Active now)
    | Active lastTriggerTime =>
        if Qle_bool (now - lastTriggerTime) cooldownPeriod
        then (false, Active lastTriggerTime)
        else (true, Active now)
    end
  else (false, Inactive).

End AlertDeduplicator.

(** The track an entry of [last_alert_state] stands for. *)
Definition track_of (s : FaceAnalyzer.AlertState)
    : AlertDeduplicator.TrackState :=
  if FaceAnalyzer.active s
  then AlertDeduplicator.Active (FaceAnalyzer.last_time s)
  else AlertDeduplicator.Inactive.




(** ** Orders and traces used in the statements *)


(** A streak: [should_trigger_alert(user_id, alert_type, True)] called at
    the clock readings [times], one after the other; the readings at which
    it returned [True]. *)
Fixpoint alert_times (user_id alert_type : string) (times : list Q)
    (last_alert_state : gmap string FaceAnalyzer.AlertState) : list Q :=
  match times with
  | [] => []
  | now :: times' =>
      let r :=
        FaceAnalyzer.should_trigger_alert now user_id alert_type true
                                          last_alert_state in
      ((if fst r then [now] else []) ++
       alert_times user_id alert_type times' (snd r))%list
  end.

(** ** Sample inputs *)

(** The baseline percentiles [noise_floor = 0.01], [noise_ceiling = 0.05]. *)
Definition scenario_noise (rms : Q) : NoiseAnalysis := mkNoise rms 0.01 0.05.

(** The sums of the spectrum of a clip of zeros. *)
Definition silent_spectrum : OptimizedAudioAnalyzer.Spectrum :=
  OptimizedAudioAnalyzer.mkSpectrum 0 0 0 0 0.

(** Ten frames of which three are speech: a ratio of exactly 0.3. *)
Definition three_in_ten : list bool :=
  [true; true; true; false; false; false; false; false; false; false].

(** A frame that decodes and shows no face; saving it succeeds. *)
Definition frame_without_face : FaceAnalyzer.FrameObservation :=
  FaceAnalyzer.mkFrame (Returned true) (Returned 0%nat) (Returned []) false
                       (Returned None)
                       (Some "uploads/violation_frames/u1.jpg").

(** Bytes that are not an image. *)
Definition undecodable_frame : FaceAnalyzer.FrameObservation :=
  FaceAnalyzer.mkFrame (Returned false) (Returned 0%nat) (Returned []) false
                       (Returned None) None.

(** Subject [u1] with an active "Multiple faces found" track, triggered at
    time 10. *)
Definition multiple_faces_active : gmap string FaceAnalyzer.AlertState :=
  {[ FaceAnalyzer.alert_key "u1" "Multiple faces found"
     := FaceAnalyzer.mkAlertState 10 true ]}.

(** Subject [test_user_123] with an active "Face not detected" track. *)
Definition other_subject_state : gmap string FaceAnalyzer.AlertState :=
  {[ FaceAnalyzer.alert_key "test_user_123" "Face not detected"
     := FaceAnalyzer.mkAlertState 10 true ]}.


(** The sums of a spectrum with most of its energy below 500 Hz. *)
Definition door_spectrum : OptimizedAudioAnalyzer.Spectrum :=
  OptimizedAudioAnalyzer.mkSpectrum 10 1 1 100 0.

(** * Properties *)

(** ** Comparisons *)

Lemma Qltb_lt (x y : Q) : Qltb x y = true <-> x < y.
Proof.
  unfold Qltb. rewrite negb_true_iff. split.
  - intros H. apply Qnot_le_lt. intros Hle.
    apply Qle_bool_iff in Hle. congruence.
  - intros H. destruct (Qle_bool y x) eqn:E; [|reflexivity].
    apply Qle_bool_iff in E. lra.
Qed.

Lemma Qltb_ge (x y : Q) : Qltb x y = false <-> y <= x.
Proof.
  unfold Qltb. rewrite negb_false_iff. apply Qle_bool_iff.
Qed.

Lemma Qltb_spec (x y : Q) : reflect (x < y) (Qltb x y).
Proof.
  destruct (Qltb x y) eqn:E; constructor.
  - now apply Qltb_lt.
  - apply Qltb_ge in E. lra.
Qed.

(** ** The alert cooldown *)

Section Cooldown.
Import FaceAnalyzer.

Variable now : Q.
Variables user_id alert_type : string.
Variable st : gmap string AlertState.

Local Abbreviation key := (alert_key user_id alert_type).

Lemma get_state_insert (k : string) (s : AlertState)
    (m : gmap string AlertState) :
  get_state (<[k := s]> m) k = s.
Proof. unfold get_state. now rewrite lookup_insert_eq. Qed.


(** A key never seen is an Inactive track. *)
Lemma fresh_key_inactive :
  st !! key = None ->
  track_of (get_state st key) = AlertDeduplicator.Inactive.
Proof. intros H. unfold get_state. now rewrite H. Qed.


(** The four transitions, spelled out. *)
Lemma first_occurrence_emits :
  active (get_state st key) = false ->
  exists st',
    should_trigger_alert now user_id alert_type true st = (true, st')
    /\ get_state st' key = mkAlertState now true.
Proof.
  intros H. unfold should_trigger_alert. rewrite H. simpl.
  eexists. split; [reflexivity|]. apply get_state_insert.
Qed.

Lemma within_cooldown_suppressed :
  active (get_state st key) = true ->
  now - last_time (get_state st key) <= ALERT_COOLDOWN ->
  should_trigger_alert now user_id alert_type true st = (false, st).
Proof.
  intros H Hle. unfold should_trigger_alert. rewrite H. simpl.
  apply Qltb_ge in Hle. now rewrite Hle.
Qed.

Lemma after_cooldown_emits :
  active (get_state st key) = true ->
  ALERT_COOLDOWN < now - last_time (get_state st key) ->
  exists st',
    should_trigger_alert now user_id alert_type true st = (true, st')
    /\ get_state st' key = mkAlertState now true.
Proof.
  intros H Hlt. unfold should_trigger_alert. rewrite H. simpl.
  apply Qltb_lt in Hlt. rewrite Hlt.
  eexists. split; [reflexivity|]. apply get_state_insert.
Qed.

Lemma resolved_resets :
  exists st',
    should_trigger_alert now user_id alert_type false st = (false, st')
    /\ active (get_state st' key) = false.
Proof.
  unfold should_trigger_alert. simpl.
  eexists. split; [reflexivity|]. now rewrite get_state_insert.
Qed.

End Cooldown.

(** ** Cleanup *)

Section Cleanup.
Import FaceAnalyzer.

Lemma lookup_foldl_delete (ks : list string) (m : gmap string AlertState)
    (k : string) :
  foldl (fun m key => delete key m) m ks !! k
  = if decide (k ∈ ks) then None else m !! k.
Proof.
  revert m. induction ks as [|k0 ks IH]; intros m; cbn [foldl].
  - destruct (decide (k ∈ [])) as [H|H]; [|reflexivity].
    now apply elem_of_nil in H.
  - rewrite IH.
    destruct (decide (k ∈ ks)) as [H1|H1];
      destruct (decide (k ∈ k0 :: ks)) as [H2|H2]; try reflexivity.
    + exfalso. apply H2, elem_of_cons. now right.
    + apply elem_of_cons in H2 as [->|H2]; [apply lookup_delete_eq|tauto].
    + apply lookup_delete_ne. intros ->. apply H2, elem_of_cons. now left.
Qed.

(** What [cleanup_alert_states] leaves under each key: the entries whose
    key starts with [user_id_] are gone, all others are as before. *)
Lemma lookup_cleanup_alert_states (user_id : string)
    (st : gmap string AlertState) (k : string) :
  cleanup_alert_states user_id st !! k
  = if String.prefix (user_id +:+ "_") k then None else st !! k.
Proof.
  unfold cleanup_alert_states. rewrite lookup_foldl_delete.
  case_decide as Hin.
  - apply list_elem_of_In, List.filter_In in Hin as [_ ->]. reflexivity.
  - destruct (String.prefix (user_id +:+ "_") k) eqn:Hp; [|reflexivity].
    destruct (st !! k) as [v|] eqn:Hk; [|reflexivity].
    exfalso. apply Hin. apply list_elem_of_In, List.filter_In. split; [|exact Hp].
    apply list_elem_of_In, list_elem_of_fmap. exists (k, v). split; [reflexivity|].
    now apply elem_of_map_to_list.
Qed.

Lemma prefix_append (a b : string) : String.prefix a (a +:+ b) = true.
Proof.
  induction a as [|c a IH]; simpl.
  - now destruct b.
  - destruct (Ascii.ascii_dec c c); [exact IH|congruence].
Qed.

Lemma append_assoc (a b c : string) : (a +:+ b) +:+ c = a +:+ (b +:+ c).
Proof.
  induction a as [|x a IH]; [reflexivity|].
  change (String x ((a +:+ b) +:+ c) = String x (a +:+ (b +:+ c))).
  now rewrite IH.
Qed.

(** Every entry of the subject is removed. *)
Lemma cleanup_removes_subject (user_id alert_type : string)
    (st : gmap string AlertState) :
  cleanup_alert_states user_id st !! alert_key user_id alert_type = None.
Proof.
  rewrite lookup_cleanup_alert_states. unfold alert_key.
  now rewrite <- append_assoc, prefix_append.
Qed.

(** An entry whose key does not start with [user_id_] is untouched. *)
Lemma cleanup_keeps_other_prefix (user_id k : string)
    (st : gmap string AlertState) :
  String.prefix (user_id +:+ "_") k = false ->
  cleanup_alert_states user_id st !! k = st !! k.
Proof. intros H. now rewrite lookup_cleanup_alert_states, H. Qed.

(** C2, at the subjects [test_user] and [test_user_123].  The entry of
    subject [test_user_123] for "Face not detected" is in the dictionary;
    cleaning up the other subject [test_user] deletes it, because its key
    [test_user_123_Face not detected] starts with [test_user_]. *)
Theorem cleanup_deletes_entry_of_other_subject :
  "test_user" <> "test_user_123"
  /\ other_subject_state !! alert_key "test_user_123" "Face not detected"
     = Some (mkAlertState 10 true)
  /\ cleanup_alert_states "test_user" other_subject_state
     !! alert_key "test_user_123" "Face not detected" = None.
Proof.
  split; [discriminate|]. split.
  - apply lookup_singleton_eq.
  - rewrite lookup_cleanup_alert_states. reflexivity.
Qed.

End Cleanup.

(** ** Frame analysis *)

Section FrameAnalysis.
Import FaceAnalyzer.

Variable clock : string -> Q.
Variable frame : FrameObservation.
Variable user_id : string.




Lemma bind_report_at {B : Type} (name : string)
    (set : AnalysisData -> AnalysisData) (l : Locals) (k : Locals -> Exec B)
    (st : gmap string AlertState) :
  bind (report clock user_id name set l) k st
  = k (if fst (should_trigger_alert (clock name) user_id name true st)
       then ((fst l ++ [name])%list, set (snd l)) else l)
      (snd (should_trigger_alert (clock name) user_id name true st)).
Proof. reflexivity. Qed.



Lemma try_bind_at {A B : Type} (c : Exec A) (k : A -> Exec B)
    (h : string -> Exec B) (st : gmap string AlertState) :
  try_except (bind c k) h st
  = match c st with
    | (Ends (Returned a), s') => try_except (k a) h s'
    | (Ends (Raised e), s') => h e s'
    | (Hangs, s') => (Hangs, s')
    end.
Proof. unfold bind, try_except. now destruct (c st) as [[[a|e]|] s']. Qed.

Lemma bind_ret_r_at {A : Type} (c : Exec A) (st : gmap string AlertState) :
  c st = bind c ret st.
Proof. unfold bind, ret. now destruct (c st) as [[[a|e]|] s']. Qed.

(** The logging calls of a tick, each started with the lock free: the
    opening message returns and frees the lock; the closing message returns
    when there is no violation, and hangs when there is one, because
    [log_violation] asks for the lock that [log_analysis_complete] holds. *)
Lemma log_analysis_start_returns :
  FaceAnalysisLogger.log_analysis_start false = (Ends (Returned tt), false).
Proof. reflexivity. Qed.

Lemma log_alert_state_change_returns :
  FaceAnalysisLogger.log_alert_state_change false
  = (Ends (Returned tt), false).
Proof. reflexivity. Qed.

Lemma log_analysis_complete_returns :
  FaceAnalysisLogger.log_analysis_complete [] false
  = (Ends (Returned tt), false).
Proof. reflexivity. Qed.

Lemma log_analysis_complete_hangs (v : string) (violations : list string) :
  fst (FaceAnalysisLogger.log_analysis_complete (v :: violations) false)
  = Hangs.
Proof. reflexivity. Qed.

(** The end of the [try], from the local variables [l] on: saving the
    frame, the two logging calls and the result. *)
Local Abbreviation finish l :=
  (let should_save := negb (Nat.eqb (List.length (fst l)) 0) in
   saved_file_path <- (if should_save then
                         _ <- logger (FaceAnalysisLogger.log_frame_saved
                                        (saved_path frame)) ;;
                         ret (saved_path frame)
                       else ret None) ;;
   _ <- logger (FaceAnalysisLogger.log_analysis_complete (fst l)) ;;
   ret (Success user_id (fst l) (snd l) should_save saved_file_path)).

Local Abbreviation handler := (fun e : string => ret (Failure user_id e)).

(** It leaves the dictionary alone.  Without a violation it returns the
    result; with one it hangs in the closing log call, or, when the frame
    could not be saved, its logging raises and the error result is
    returned. *)
Lemma finish_outcome (l : Locals) (st : gmap string AlertState) :
  try_except (finish l) handler st
  = (match fst l, saved_path frame with
     | [], _ => Ends (Returned (Success user_id [] (snd l) false None))
     | _ :: _, Some _ => Hangs
     | _ :: _, None =>
         Ends (Returned
                 (Failure user_id
                    "expected str, bytes or os.PathLike object, not NoneType"))
     end, st).
Proof.
  destruct l as [[|v vs] d]; [reflexivity|].
  unfold try_except, bind, logger, ret. cbn [fst snd List.length Nat.eqb negb].
  destruct (saved_path frame); reflexivity.
Qed.












(** No exception leaves [analyze_frame]. *)
Lemma analyze_frame_never_raises (st : gmap string AlertState) (e : string) :
  fst (analyze_frame clock frame user_id st) <> Ends (Raised e).
Proof.
  unfold analyze_frame, try_except.
  destruct (analyze_frame_body clock frame user_id st) as [[[r|e']|] s'];
    cbn; discriminate.
Qed.

(** When the frame cannot be decoded the error result is returned and
    [last_alert_state] is as before. *)
Lemma decode_failure_returns_error (st : gmap string AlertState) :
  decoded frame = Returned false ->
  analyze_frame clock frame user_id st = (Ends (Returned DecodeError), st)
  /\ status DecodeError = "error"
  /\ violations DecodeError = [].
Proof.
  intros Hd. split; [|split; reflexivity].
  unfold analyze_frame, analyze_frame_body. now rewrite Hd.
Qed.

(** A result that is returned never lists a violation: a tick that found
    one either hangs in [log_analysis_complete] or, when the frame could not
    be saved, returns the error result. *)
Lemma returned_result_has_no_violation (st : gmap string AlertState)
    (r : Result) :
  fst (analyze_frame clock frame user_id st) = Ends (Returned r) ->
  violations r = [].
Proof.
  unfold analyze_frame, analyze_frame_body.
  rewrite try_bind_at. unfold logger at 1.
  rewrite log_analysis_start_returns. cbn [fst]. cbv beta iota.
  rewrite try_bind_at. unfold external at 1. cbv beta iota.
  destruct (decoded frame) as [[|]|e]; cbv beta iota.
  - change (negb true) with false. cbv iota.
    rewrite try_bind_at. unfold external at 1. cbv beta iota.
    destruct (face_locations frame) as [n|e]; cbv beta iota;
      [|cbn; intros [= <-]; reflexivity].
    rewrite try_bind_at. unfold external at 1. cbv beta iota.
    destruct (face_landmarks frame) as [landmarks|e]; cbv beta iota;
      [|cbn; intros [= <-]; reflexivity].
    rewrite try_bind_at.
    match goal with
    | |- context [match ?c st with _ => _ end] =>
        destruct (c st) as [[[l|e]|] s']
    end.
    + rewrite finish_outcome.
      destruct (fst l), (saved_path frame); cbn; intros [= <-]; reflexivity.
    + cbn. intros [= <-]. reflexivity.
    + cbn. discriminate.
  - cbn. intros [= <-]. reflexivity.
  - cbn. intros [= <-]. reflexivity.
Qed.

(** The first tick without a face hangs, for every subject whose
    "Face not detected" track is Inactive, once the frame is saved. *)
Lemma face_loss_tick_hangs (landmarks : list (nat * nat)) (path : string)
    (st : gmap string AlertState) :
  decoded frame = Returned true ->
  face_locations frame = Returned 0%nat ->
  face_landmarks frame = Returned landmarks ->
  saved_path frame = Some path ->
  active (get_state st (alert_key user_id "Face not detected")) = false ->
  fst (analyze_frame clock frame user_id st) = Hangs.
Proof.
  intros Hd Hn Hl Hp Hact.
  destruct (first_occurrence_emits (clock "Face not detected") user_id
              "Face not detected" st Hact) as (st' & Hfire & _).
  unfold analyze_frame, analyze_frame_body.
  rewrite Hd, Hn, Hl.
  rewrite try_bind_at. unfold logger at 1.
  rewrite log_analysis_start_returns. cbn [fst]. cbv beta iota.
  rewrite try_bind_at. unfold external at 1. cbv beta iota.
  change (negb true) with false. cbv iota.
  rewrite try_bind_at. unfold external at 1. cbv beta iota.
  rewrite try_bind_at. unfold external at 1. cbv beta iota.
  simpl (_ =? _)%nat. cbv iota.
  rewrite try_bind_at.
  rewrite (bind_ret_r_at (report clock user_id "Face not detected" _ _) st).
  rewrite bind_report_at, Hfire. unfold ret at 1.
  change (fst (true, st')) with true. change (snd (true, st')) with st'.
  cbv beta iota.
  rewrite finish_outcome. cbn [fst snd app]. now rewrite Hp.
Qed.

End FrameAnalysis.

(** ** Calibration thresholds *)

Section Calibration.

Lemma insort_not_nil (x : Q) (l : list Q) : NumPy.insort x l <> [].
Proof. destruct l as [|y l]; simpl; [|destruct (Qle_bool x y)]; discriminate. Qed.

Lemma sort_not_nil (a : list Q) : a <> [] -> NumPy.sort a <> [].
Proof.
  destruct a as [|x a]; [congruence|]. intros _. simpl.
  apply insort_not_nil.
Qed.

(** A non-empty array has a percentile. *)
Lemma percentile_defined (a : list Q) (q : Q) :
  a <> [] -> exists v, NumPy.percentile a q = Some v.
Proof.
  intros Ha. unfold NumPy.percentile.
  pose proof (sort_not_nil a Ha) as Hs.
  destruct (NumPy.sort a) as [|x0 s]; [congruence|]. eexists. reflexivity.
Qed.

(** Every percentile of a one-element array is that element. *)
Lemma percentile_singleton (w q : Q) :
  exists v, NumPy.percentile [w] q = Some v /\ v == w.
Proof.
  unfold NumPy.percentile. cbn [NumPy.sort fold_right NumPy.insort].
  eexists. split; [reflexivity|].
  assert (forall i, nth i [w] w = w) as Hnth
    by (intros [|[|i]]; reflexivity).
  rewrite !Hnth. ring.
Qed.

Ltac thresholds :=
  cbv zeta; cbn [low medium high noise_floor noise_ceiling];
  repeat match goal with
         | |- context [Qltb ?x ?y] => destruct (Qltb_spec x y)
         end;
  cbn [low medium high]; repeat split; lra.




(** With a noise floor and ceiling of zero the thresholds are
    [0], [min_separation] and [2 * min_separation]. *)
Lemma _calculate_thresholds_silence (noise_analysis : NoiseAnalysis) :
  noise_floor noise_analysis == 0 ->
  noise_ceiling noise_analysis == 0 ->
  let t := CalibrationService._calculate_thresholds noise_analysis in
  low t == 0 /\ medium t == 0.01 /\ high t == 0.02.
Proof.
  intros Hf Hc. unfold CalibrationService._calculate_thresholds. thresholds.
Qed.

Lemma _fast_calculate_thresholds_silence (noise_analysis : NoiseAnalysis) :
  noise_floor noise_analysis == 0 ->
  noise_ceiling noise_analysis == 0 ->
  let t :=
    OptimizedCalibrationService._fast_calculate_thresholds noise_analysis in
  low t == 0 /\ medium t == 0.001 /\ high t == 0.002.
Proof.
  intros Hf Hc.
  unfold OptimizedCalibrationService._fast_calculate_thresholds. thresholds.
Qed.


End Calibration.

Section CalibrationFailures.

(** C4 as stated fails: a baseline of a single RMS window, and a baseline
    of silence whose noise ceiling is zero, both calibrate without error. *)
Lemma short_or_silent_baseline_calibrates :
  ~ (forall (rms : Q) (frame_energies : list Q),
        (List.length frame_energies < 2)%nat ->
        exists e, CalibrationService.calibrate rms frame_energies = Raised e)
  /\ ~ (forall (rms : Q) (frame_energies : list Q) (noise_ceiling : Q),
           NumPy.percentile frame_energies 90 = Some noise_ceiling ->
           noise_ceiling == 0 ->
           exists e,
             OptimizedCalibrationService.calibrate rms frame_energies
             = Raised e).
Proof.
  split.
  - intros H. destruct (H 0.02 [0.02]) as [e He]; [simpl; lia|].
    vm_compute in He. discriminate.
  - intros H.
    assert (exists c, NumPy.percentile [0; 0; 0] 90 = Some c /\ c == 0)
      as (c & Hc & Hc0)
      by (eexists; split; [reflexivity|vm_compute; reflexivity]).
    destruct (H 0 [0; 0; 0] c Hc Hc0) as [e He].
    vm_compute in He. discriminate.
Qed.

(** C4, as the code has it.  Neither service has an error for a short or
    a silent baseline: a baseline of one RMS window [w] calibrates with
    [noise_floor = noise_ceiling = w], and a noise floor and ceiling of zero
    give the thresholds [0], [min_separation], [2 * min_separation]. *)
Theorem short_or_silent_baseline_returns_thresholds
    (rms w : Q) (noise_analysis : NoiseAnalysis) :
  (exists t, CalibrationService.calibrate rms [w] = Returned t
             /\ thresholds_noise_floor t == w
             /\ thresholds_noise_ceiling t == w)
  /\ (exists t, OptimizedCalibrationService.calibrate rms [w] = Returned t
                /\ thresholds_noise_floor t == w
                /\ thresholds_noise_ceiling t == w)
  /\ (noise_floor noise_analysis == 0 ->
      noise_ceiling noise_analysis == 0 ->
      (let t := CalibrationService._calculate_thresholds noise_analysis in
       low t == 0 /\ medium t == 0.01 /\ high t == 0.02)
      /\ (let t :=
            OptimizedCalibrationService._fast_calculate_thresholds
              noise_analysis in
          low t == 0 /\ medium t == 0.001 /\ high t == 0.002)).
Proof.
  destruct (percentile_singleton w 10) as (f & Hf & Hfw).
  destruct (percentile_singleton w 90) as (c & Hc & Hcw).
  split; [|split].
  - unfold CalibrationService.calibrate,
      CalibrationService._analyze_background_noise. rewrite Hf, Hc.
    eexists. split; [reflexivity|]. now split.
  - unfold OptimizedCalibrationService.calibrate,
      OptimizedCalibrationService._fast_noise_analysis. rewrite Hf, Hc.
    eexists. split; [reflexivity|]. now split.
  - intros H0f H0c. split.
    + now apply _calculate_thresholds_silence.
    + now apply _fast_calculate_thresholds_silence.
Qed.

End CalibrationFailures.

(** ** Volume classification *)

Section Volume.

(** C5 as stated fails: against the thresholds of the scenario an RMS of
    0.04 is not classified "medium", in exact arithmetic or on binary64. *)
Lemma scenario_rms_is_not_medium :
  OptimizedAudioAnalyzer._fast_analyze_volume 0.04
    (CalibrationService._calculate_thresholds (scenario_noise 0.03))
  <> Medium
  /\ Binary64._analyze_volume 0.04 (Binary64._calculate_thresholds 0.01 0.05)
     <> Medium.
Proof. vm_compute. split; discriminate. Qed.

(** C5, as the code has it.  From [noise_floor = 0.01] and
    [noise_ceiling = 0.05] both services derive [low = 0.02],
    [medium = 0.034] and [high = 0.075] in exact arithmetic; on binary64
    [low] and [medium] are the values of 0.02 and 0.034 and [high] is
    0.07500000000000001.  An RMS of 0.04 is not below [medium], so the
    analyzers classify it "high". *)
Theorem scenario_thresholds_and_level (rms : Q) :
  let t := CalibrationService._calculate_thresholds (scenario_noise rms) in
  let t' :=
    OptimizedCalibrationService._fast_calculate_thresholds
      (scenario_noise rms) in
  let b := Binary64._calculate_thresholds 0.01 0.05 in
  (low t == 0.02 /\ medium t == 0.034 /\ high t == 0.075)
  /\ (low t' == 0.02 /\ medium t' == 0.034 /\ high t' == 0.075)
  /\ AudioAnalyzer._analyze_volume 0.04 t = High
  /\ OptimizedAudioAnalyzer._fast_analyze_volume 0.04 t = High
  /\ OptimizedAudioAnalyzer._fast_analyze_volume 0.04 t' = High
  /\ volume_level High = "high"
  /\ (Binary64.low b = 0.02%float
      /\ Binary64.medium b = 0.034%float
      /\ Binary64.high b = 0.075000000000000011%float)
  /\ Binary64._analyze_volume 0.04 b = High.
Proof. vm_compute. repeat split; reflexivity. Qed.

Ltac order_cases :=
  repeat match goal with
         | H : context [Pos.compare_cont Eq ?a ?b] |- _ =>
             change (Pos.compare_cont Eq a b) with (Pos.compare a b) in H
         | |- context [Pos.compare_cont Eq ?a ?b] =>
             change (Pos.compare_cont Eq a b) with (Pos.compare a b)
         end;
  repeat match goal with
         | H : context [Z.compare ?a ?b] |- _ =>
             destruct (Z.compare_spec a b); try discriminate
         | |- context [Z.compare ?a ?b] =>
             destruct (Z.compare_spec a b); try discriminate
         | H : context [Pos.compare ?a ?b] |- _ =>
             destruct (Pos.compare_spec a b); try discriminate
         | |- context [Pos.compare ?a ?b] =>
             destruct (Pos.compare_spec a b); try discriminate
         end.

(** The order of binary64 is transitive, on its specification. *)
Lemma SF_le_lt_trans (x y t : spec_float) :
  SFleb x y = true -> SFltb y t = true -> SFltb x t = true.
Proof.
  unfold SFleb, SFltb, SFcompare.
  destruct x as [sx|sx| |sx mx ex], y as [sy|sy| |sy my ey],
           t as [st|st| |st mt et];
    try discriminate;
    repeat match goal with s : bool |- _ => destruct s end;
    try discriminate; try reflexivity;
    intros H1 H2; order_cases;
    subst; simpl in *; try reflexivity; try discriminate; try lia.
Qed.

Lemma float_le_lt_trans (x y t : float) :
  (x <=? y)%float = true -> (y <? t)%float = true -> (x <? t)%float = true.
Proof. rewrite !ltb_spec, leb_spec. apply SF_le_lt_trans. Qed.

(** In exact arithmetic, in both analyzers. *)
Lemma volume_level_monotone_exact (thresholds : Thresholds) (rms1 rms2 : Q) :
  rms1 <= rms2 ->
  (level_rank (AudioAnalyzer._analyze_volume rms1 thresholds)
   <= level_rank (AudioAnalyzer._analyze_volume rms2 thresholds))%nat
  /\ (level_rank (OptimizedAudioAnalyzer._fast_analyze_volume rms1 thresholds)
      <= level_rank
           (OptimizedAudioAnalyzer._fast_analyze_volume rms2 thresholds))%nat.
Proof.
  intros Hle.
  unfold AudioAnalyzer._analyze_volume,
    OptimizedAudioAnalyzer._fast_analyze_volume.
  destruct (Qltb_spec rms1 (low thresholds));
    destruct (Qltb_spec rms2 (low thresholds));
    destruct (Qltb_spec rms1 (medium thresholds));
    destruct (Qltb_spec rms2 (medium thresholds));
    cbn [level_rank]; split; try lia; exfalso; lra.
Qed.

(** On binary64, whatever the thresholds are (not a number included). *)
Lemma volume_level_monotone_binary64 (thresholds : Binary64.Thresholds)
    (rms1 rms2 : float) :
  (rms1 <=? rms2)%float = true ->
  (level_rank (Binary64._analyze_volume rms1 thresholds)
   <= level_rank (Binary64._analyze_volume rms2 thresholds))%nat.
Proof.
  intros Hle. unfold Binary64._analyze_volume.
  destruct (rms2 <? Binary64.low thresholds)%float eqn:H2l.
  - now rewrite (float_le_lt_trans _ _ _ Hle H2l).
  - destruct (rms2 <? Binary64.medium thresholds)%float eqn:H2m.
    + rewrite (float_le_lt_trans _ _ _ Hle H2m).
      destruct (rms1 <? Binary64.low thresholds)%float; cbn; lia.
    + destruct (rms1 <? Binary64.low thresholds)%float;
        [|destruct (rms1 <? Binary64.medium thresholds)%float]; cbn; lia.
Qed.

(** C9.  For fixed thresholds the level never decreases when the RMS
    grows, in the order low < medium < high: in both analyzers in exact
    arithmetic, and on binary64. *)
Theorem volume_level_monotone (thresholds : Thresholds) (rms1 rms2 : Q)
    (thresholds64 : Binary64.Thresholds) (x1 x2 : float) :
  (rms1 <= rms2 ->
   (level_rank (AudioAnalyzer._analyze_volume rms1 thresholds)
    <= level_rank (AudioAnalyzer._analyze_volume rms2 thresholds))%nat
   /\ (level_rank (OptimizedAudioAnalyzer._fast_analyze_volume rms1 thresholds)
       <= level_rank
            (OptimizedAudioAnalyzer._fast_analyze_volume rms2 thresholds))%nat)
  /\ ((x1 <=? x2)%float = true ->
      (level_rank (Binary64._analyze_volume x1 thresholds64)
       <= level_rank (Binary64._analyze_volume x2 thresholds64))%nat).
Proof.
  split.
  - apply volume_level_monotone_exact.
  - apply volume_level_monotone_binary64.
Qed.

End Volume.

(** ** Speech aggregation *)

Section Speech.

Lemma fold_count (verdicts : list bool) (speech total : nat) :
  fold_left (fun counters (is_speech : bool) =>
               ((if is_speech then S (fst counters) else fst counters),
                S (snd counters)))
            verdicts (speech, total)
  = ((speech + List.length (List.filter (fun b => b) verdicts))%nat,
     (total + List.length verdicts)%nat).
Proof.
  revert speech total.
  induction verdicts as [|b verdicts IH]; intros speech total; simpl.
  - f_equal; lia.
  - rewrite IH. destruct b; simpl; f_equal; lia.
Qed.

(** The loop counts the speech frames and all frames. *)
Lemma count_frames_spec (verdicts : list bool) :
  count_frames verdicts
  = (List.length (List.filter (fun b => b) verdicts), List.length verdicts).
Proof. unfold count_frames. now rewrite fold_count. Qed.

Lemma ratio_threshold (speech total : nat) :
  Qltb 0.3 (if Nat.ltb 0 total then Qnat speech / Qnat total else 0) = true
  <-> (0 < total)%nat /\ 0.3 < Qnat speech / Qnat total.
Proof.
  destruct (Nat.ltb 0 total) eqn:Ht.
  - apply Nat.ltb_lt in Ht. rewrite Qltb_lt. tauto.
  - apply Nat.ltb_ge in Ht. split; [discriminate|]. intros [H _]. lia.
Qed.

(** C8.  Speech aggregation returns false when there is no frame, and
    otherwise returns true exactly when
    [speech_frames / total_frames > 0.3]; three speech frames in ten, a
    ratio of exactly 0.3, give false.  Both analyzers. *)
Theorem speech_ratio_threshold (verdicts : list bool) :
  let speech_frames := List.length (List.filter (fun b => b) verdicts) in
  let total_frames := List.length verdicts in
  AudioAnalyzer._detect_speech (Returned []) = false
  /\ OptimizedAudioAnalyzer._fast_detect_speech (Returned []) = false
  /\ (AudioAnalyzer._detect_speech (Returned verdicts) = true
      <-> (0 < total_frames)%nat
          /\ 0.3 < Qnat speech_frames / Qnat total_frames)
  /\ (OptimizedAudioAnalyzer._fast_detect_speech (Returned verdicts) = true
      <-> (0 < total_frames)%nat
          /\ 0.3 < Qnat speech_frames / Qnat total_frames)
  /\ Qnat 3 / Qnat 10 == 0.3
  /\ AudioAnalyzer._detect_speech (Returned three_in_ten) = false
  /\ OptimizedAudioAnalyzer._fast_detect_speech (Returned three_in_ten)
     = false.
Proof.
  intros speech_frames total_frames.
  split; [reflexivity|]. split; [reflexivity|].
  split; [|split].
  - unfold AudioAnalyzer._detect_speech. rewrite count_frames_spec.
    apply ratio_threshold.
  - unfold OptimizedAudioAnalyzer._fast_detect_speech.
    rewrite count_frames_spec. apply ratio_threshold.
  - repeat split; reflexivity.
Qed.

End Speech.

(** ** Sound rules on a clip without energy *)

Section SoundRules.
Import OptimizedAudioAnalyzer.

Lemma divide_zero_by_zero (x y : Q) :
  x == 0 -> y == 0 -> NumPy.divide x y = NumPy.NaN.
Proof.
  intros Hx Hy. unfold NumPy.divide.
  apply Qeq_bool_iff in Hx. apply Qeq_bool_iff in Hy. now rewrite Hx, Hy.
Qed.

(** With band energies that are non-negative and sum to zero, every ratio
    is [nan], every comparison with it is false, and no label is
    detected. *)
Lemma zero_energy_no_labels (f : Spectrum) :
  0 <= low_energy f -> 0 <= mid_energy f -> 0 <= high_energy f ->
  total_energy f == 0 ->
  _fast_detect_background_sounds (Returned f) = [].
Proof.
  intros Hl Hm Hh Ht. unfold total_energy in Ht.
  assert (low_energy f == 0) as Hl0 by lra.
  assert (mid_energy f == 0) as Hm0 by lra.
  unfold _fast_detect_background_sounds, typing_rule, phone_rule, door_rule,
    mechanical_rule, spectral_centroid, total_energy.
  rewrite (divide_zero_by_zero (mid_energy f) _ Hm0 Ht).
  rewrite (divide_zero_by_zero (low_energy f) _ Hl0 Ht).
  assert (Qltb 0 (low_energy f + mid_energy f + high_energy f) = false)
    as -> by (apply Qltb_ge; lra).
  cbn [NumPy.greater]. rewrite !andb_false_r.
  reflexivity.
Qed.

(** The full analyzer guards its ratio: without energy the phone rule is
    false and nothing is divided. *)
Lemma _detect_phone_frequencies_guarded (voice_energy total_energy : Q) :
  total_energy == 0 ->
  AudioAnalyzer._detect_phone_frequencies
    (Returned (voice_energy, total_energy)) = false.
Proof.
  intros Ht. unfold AudioAnalyzer._detect_phone_frequencies.
  assert (Qltb 0 total_energy = false) as -> by (apply Qltb_ge; lra).
  reflexivity.
Qed.

(** C7, on a clip of zeros.  The optimized classifier divides the band
    energies by a total energy of zero: the ratios of the phone, door and
    mechanical rules are [nan], not 0.  The comparisons with [nan] are
    false, so the clip still gets no label. *)
Theorem silent_clip_ratios_are_nan :
  total_energy silent_spectrum == 0
  /\ NumPy.divide (mid_energy silent_spectrum) (total_energy silent_spectrum)
     = NumPy.NaN
  /\ NumPy.divide (low_energy silent_spectrum) (total_energy silent_spectrum)
     = NumPy.NaN
  /\ NumPy.NaN <> NumPy.Fin 0
  /\ _fast_detect_background_sounds (Returned silent_spectrum) = [].
Proof. repeat split; try reflexivity. discriminate. Qed.

End SoundRules.

(** ** The theorems at sample inputs *)



(** C4, as the code has it, at a noise floor and ceiling of zero. *)
Lemma short_or_silent_baseline_returns_thresholds_witness :
  (noise_floor (mkNoise 0 0 0) == 0 /\ noise_ceiling (mkNoise 0 0 0) == 0)
  /\ (let t := CalibrationService._calculate_thresholds (mkNoise 0 0 0) in
      low t == 0 /\ medium t == 0.01 /\ high t == 0.02).
Proof.
  split; [split; reflexivity|].
  exact (proj1 (proj2 (proj2 (short_or_silent_baseline_returns_thresholds
                                0.02 0.02 (mkNoise 0 0 0)))
                  ltac:(reflexivity) ltac:(reflexivity))).
Defined.

(** C9 at the RMS values 0.01 and 0.04 and the thresholds of the scenario. *)
Lemma volume_level_monotone_witness :
  0.01 <= 0.04
  /\ (level_rank
        (AudioAnalyzer._analyze_volume 0.01
           (CalibrationService._calculate_thresholds (scenario_noise 0.03)))
      <= level_rank
           (AudioAnalyzer._analyze_volume 0.04
              (CalibrationService._calculate_thresholds (scenario_noise 0.03))))%nat
  /\ (0.01 <=? 0.04)%float = true
  /\ (level_rank
        (Binary64._analyze_volume 0.01
           (Binary64._calculate_thresholds 0.01 0.05))
      <= level_rank
           (Binary64._analyze_volume 0.04
              (Binary64._calculate_thresholds 0.01 0.05)))%nat.
Proof.
  assert (0.01 <= 0.04) as H by (vm_compute; discriminate).
  assert ((0.01 <=? 0.04)%float = true) as H' by reflexivity.
  pose proof (volume_level_monotone
                (CalibrationService._calculate_thresholds (scenario_noise 0.03))
                0.01 0.04
                (Binary64._calculate_thresholds 0.01 0.05)
                0.01%float 0.04%float) as [Hq Hf].
  split; [exact H|]. split; [exact (proj1 (Hq H))|].
  split; [exact H'|]. exact (Hf H').
Defined.


(** ** Scenarios *)

(** numpy's documented example: the 10th percentile of 1..5 is 1.4. *)
Example percentile_one_to_five :
  exists v, NumPy.percentile [3; 1; 5; 2; 4] 10 = Some v /\ v == 1.4.
Proof. eexists. split; [reflexivity|]. vm_compute. reflexivity. Qed.

(** Three ticks without a face, 5 seconds apart, at the deduplicator: only
    the first push of "Face not detected" emits. *)
Example three_pushes_within_cooldown :
  let push now st :=
    FaceAnalyzer.should_trigger_alert now "u1" "Face not detected" true st in
  let r1 := push 100 ∅ in
  let r2 := push 105 (snd r1) in
  let r3 := push 110 (snd r2) in
  (fst r1, fst r2, fst r3) = (true, false, false).
Proof. reflexivity. Qed.

(** The sound-rule scenario of the specification: a zero-crossing rate of
    0.12, a centroid of 2000 and band energies 0.1, 0.75, 0.15 are labelled
    typing, phone and mechanical. *)
Example sound_rule_scenario :
  OptimizedAudioAnalyzer._fast_detect_background_sounds
    (Returned (OptimizedAudioAnalyzer.mkSpectrum 0.1 0.75 0.15 2000 0.12))
  = ["typing"; "phone"; "mechanical"].
Proof. reflexivity. Qed.

(** Bytes that are not an image give the error result and leave the
    dictionary as it was. *)
Example undecodable_frame_tick :
  FaceAnalyzer.analyze_frame (fun _ => 15) undecodable_frame "u1"
    multiple_faces_active
  = (Ends (Returned FaceAnalyzer.DecodeError), multiple_faces_active).
Proof.
  apply (decode_failure_returns_error (fun _ => 15) undecodable_frame "u1"
           multiple_faces_active eq_refl).
Qed.

(** C10, on the first frame without a face.  The frame decodes, no face is
    found, "Face not detected" fires for the fresh subject and the frame is
    saved; then [log_analysis_complete] takes the logger's lock and calls
    [log_violation], which waits for the same lock: [analyze_frame] never
    returns its result.  The alert is already recorded in
    [last_alert_state]. *)
Theorem first_violation_tick_never_returns :
  FaceAnalyzer.decoded frame_without_face = Returned true
  /\ fst (FaceAnalyzer.analyze_frame (fun _ => 100) frame_without_face "u1" ∅)
     = Hangs
  /\ snd (FaceAnalyzer.analyze_frame (fun _ => 100) frame_without_face "u1" ∅)
     !! FaceAnalyzer.alert_key "u1" "Face not detected"
     = Some (FaceAnalyzer.mkAlertState 100 true).
Proof. repeat split; reflexivity. Qed.

(** ** Loops over frames *)

Section Ranges.

Lemma range_length (start stop step : Z) :
  List.length (Python.range start stop step)
  = Z.to_nat ((stop - start + step - 1) / step).
Proof. unfold Python.range. now rewrite length_map, length_seq. Qed.

Lemma range_In (start stop step i : Z) :
  (0 < step)%Z ->
  In i (Python.range start stop step) ->
  (start <= i < stop)%Z /\ ((i - start) mod step = 0)%Z.
Proof.
  intros Hstep Hin. unfold Python.range in Hin.
  apply in_map_iff in Hin as [k [<- Hk]]. apply in_seq in Hk.
  assert (Z.of_nat k < (stop - start + step - 1) / step)%Z as Hlt by lia.
  assert (Z.of_nat k * step < stop - start)%Z as Hb.
  { destruct (Z_lt_le_dec (Z.of_nat k * step) (stop - start)) as [|Hge]; [assumption|].
    exfalso.
    assert ((stop - start + step - 1) / step < Z.of_nat k + 1)%Z; [|lia].
    apply Z.div_lt_upper_bound; [lia|]. nia. }
  split; [nia|].
  replace (start + Z.of_nat k * step - start)%Z with (Z.of_nat k * step)%Z by lia.
  apply Z_mod_mult.
Qed.

Lemma slice_length {A : Type} (a : list A) (i n : Z) :
  (0 <= i)%Z -> (0 <= n)%Z -> (i + n <= Z.of_nat (List.length a))%Z ->
  List.length (Python.slice a i (i + n)) = Z.to_nat n.
Proof.
  intros Hi Hn Hle. unfold Python.slice.
  rewrite length_firstn, length_skipn.
  replace (i + n - i)%Z with n by lia. lia.
Qed.


(** The slices a loop [for i in range(0, len(a) - frame_length, step)] takes
    with [a[i:i + frame_length]]. *)
Lemma sliding_frames_full {A : Type} (a : list A) (frame_length step : Z) :
  (0 <= frame_length)%Z -> (0 < step)%Z ->
  Forall (fun frame => List.length frame = Z.to_nat frame_length)
         (List.map (fun i => Python.slice a i (i + frame_length))
                   (Python.range 0 (Z.of_nat (List.length a) - frame_length)
                                 step)).
Proof.
  intros HF HS. apply List.Forall_forall. intros frame Hin.
  apply in_map_iff in Hin as [i [<- Hi]].
  apply range_In in Hi as [Hi _]; [|assumption].
  apply slice_length; lia.
Qed.

Lemma concat_chunks {A : Type} (a : list A) (F n : nat) :
  (n * F <= List.length a)%nat ->
  concat (List.map (fun k => firstn F (skipn (k * F) a)) (seq 0 n))
  = firstn (n * F) a.
Proof.
  induction n as [|n IH]; intros Hle.
  - reflexivity.
  - rewrite seq_S, map_app, concat_app, IH by lia. cbn [List.map concat plus].
    rewrite app_nil_r.
    replace (S n * F)%nat with (n * F + F)%nat by lia.
    apply take_take_drop.
Qed.

(** With [step = frame_length] the frames are the consecutive chunks of the
    array, the last one left out. *)
Lemma tiling_frames {A : Type} (a : list A) (frame_length : Z) :
  (0 < frame_length)%Z ->
  let n := Z.to_nat ((Z.of_nat (List.length a) - 1) / frame_length) in
  let frames :=
    List.map (fun i => Python.slice a i (i + frame_length))
             (Python.range 0 (Z.of_nat (List.length a) - frame_length)
                           frame_length) in
  List.length frames = n
  /\ concat frames = firstn (n * Z.to_nat frame_length) a
  /\ (a <> [] -> n * Z.to_nat frame_length < List.length a)%nat.
Proof.
  intros HF n frames.
  assert (Hn : ((Z.of_nat (List.length a) - frame_length - 0
                 + frame_length - 1) / frame_length
                = (Z.of_nat (List.length a) - 1) / frame_length)%Z)
    by (f_equal; lia).
  assert (Hbound : (Z.of_nat n * frame_length
                     <= Z.of_nat (List.length a) - 1)%Z \/ a = []).
  { destruct a as [|x a']; [now right|left]. subst n.
    rewrite Z2Nat.id by (apply Z.div_pos; cbn [List.length]; lia).
    rewrite Z.mul_comm. apply Z.mul_div_le. lia. }
  split; [|split].
  - subst frames. rewrite length_map, range_length, Hn. reflexivity.
  - subst frames. unfold Python.range. rewrite Hn. fold n.
    rewrite map_map.
    rewrite <- (concat_chunks a (Z.to_nat frame_length) n).
    + f_equal. apply map_ext. intros k. unfold Python.slice.
      f_equal; [f_equal; lia|]. f_equal. lia.
    + destruct Hbound as [Hb| ->]; [nia|].
      subst n. cbn [List.length]. 
      replace ((Z.of_nat 0 - 1) / frame_length)%Z with (-1)%Z; [cbn; lia|].
      apply Z.div_unique with (r := (frame_length - 1)%Z); lia.
  - intros Hne. destruct Hbound as [Hb|]; [nia|contradiction].
Qed.

End Ranges.

Section Framing.

Lemma range_nil_iff (stop step : Z) :
  (0 < step)%Z -> Python.range 0 stop step = [] <-> (stop <= 0)%Z.
Proof.
  intros Hs. unfold Python.range. split.
  - intros H. apply (f_equal (@List.length Z)) in H.
    rewrite length_map, length_seq in H. cbn [List.length] in H.
    destruct (Z_le_gt_dec stop 0) as [|Hgt]; [assumption|exfalso].
    assert (1 <= (stop - 0 + step - 1) / step)%Z; [|lia].
    apply Z.div_le_lower_bound; lia.
  - intros H.
    replace (Z.to_nat ((stop - 0 + step - 1) / step)) with 0%nat; [reflexivity|].
    assert ((stop - 0 + step - 1) / step < 1)%Z; [|lia].
    apply Z.div_lt_upper_bound; lia.
Qed.

(** X10.  The frames of [_analyze_background_noise] are the consecutive
    chunks of [frame_length] samples of the clip, each of full length, and
    the last chunk is left out also when it is complete: a clip of [len]
    samples gives [(len - 1) // frame_length] frames, and at least one
    sample of a non-empty clip is in no frame. *)
Theorem frame_energies_chunks (frame_energy : list Q -> Q)
    (audio_array : list Q) (sample_rate : Z) :
  (10 <= sample_rate)%Z ->
  let frame_length := Z.to_nat (sample_rate / 10) in
  let n :=
    Z.to_nat ((Z.of_nat (List.length audio_array) - 1) / (sample_rate / 10)) in
  exists frames : list (list Q),
    CalibrationService.frame_energies frame_energy audio_array sample_rate
    = List.map frame_energy frames
    /\ List.length frames = n
    /\ Forall (fun frame => List.length frame = frame_length) frames
    /\ concat frames = firstn (n * frame_length) audio_array
    /\ (audio_array <> [] -> (n * frame_length < List.length audio_array)%nat).
Proof.
  intros Hsr frame_length n.
  assert (0 < sample_rate / 10)%Z as HF
    by (apply Z.div_str_pos; lia).
  exists (List.map
            (fun i => Python.slice audio_array i (i + sample_rate / 10))
            (Python.range 0
               (Z.of_nat (List.length audio_array) - sample_rate / 10)
               (sample_rate / 10))).
  destruct (tiling_frames audio_array (sample_rate / 10) HF) as (H1 & H2 & H3).
  split; [|split; [exact H1|split; [|split; [exact H2|exact H3]]]].
  - unfold CalibrationService.frame_energies. now rewrite map_map.
  - apply sliding_frames_full; lia.
Qed.

(** X11.  Calibration from the frame energies of a clip raises exactly
    when the clip has no frame: in the full service when it has at most
    [sample_rate // 10] samples, in the optimized service when it has at
    most [sample_rate // 5] samples. *)
Theorem short_clip_has_no_noise_analysis (frame_energy : list Q -> Q)
    (rms : Q) (audio_array : list Q) (sample_rate : Z) :
  (10 <= sample_rate)%Z ->
  ((exists e,
      CalibrationService.calibrate rms
        (CalibrationService.frame_energies frame_energy audio_array
                                           sample_rate) = Raised e)
   <-> (Z.of_nat (List.length audio_array) <= sample_rate / 10)%Z)
  /\ ((exists e,
         OptimizedCalibrationService.calibrate rms
           (OptimizedCalibrationService.frame_energies frame_energy
              audio_array sample_rate) = Raised e)
      <-> (Z.of_nat (List.length audio_array) <= sample_rate / 5)%Z).
Proof.
  intros Hsr.
  assert (0 < sample_rate / 10)%Z as HF by (apply Z.div_str_pos; lia).
  assert (2 <= sample_rate / 5)%Z as HF' by (apply Z.div_le_lower_bound; lia).
  assert (0 < sample_rate / 5 / 2)%Z as HS by (apply Z.div_str_pos; lia).
  assert (Hraise : forall energies : list Q,
             ((exists e, CalibrationService.calibrate rms energies = Raised e)
              <-> energies = [])
             /\ ((exists e, OptimizedCalibrationService.calibrate rms energies
                            = Raised e)
                 <-> energies = [])).
  { intros energies. destruct energies as [|x energies].
    - split; (split; [reflexivity|intros _; eexists; reflexivity]).
    - destruct (percentile_defined (x :: energies) 10 ltac:(discriminate))
        as [f Hf].
      destruct (percentile_defined (x :: energies) 90 ltac:(discriminate))
        as [c Hc].
      unfold CalibrationService.calibrate,
        CalibrationService._analyze_background_noise,
        OptimizedCalibrationService.calibrate,
        OptimizedCalibrationService._fast_noise_analysis.
      rewrite Hf, Hc.
      split; (split; [intros [e He]|]; discriminate). }
  split.
  - rewrite (proj1 (Hraise _)). unfold CalibrationService.frame_energies.
    split.
    + intros H. apply map_eq_nil in H. apply range_nil_iff in H; lia.
    + intros H. rewrite (proj2 (range_nil_iff _ _ HF)); [reflexivity|lia].
  - rewrite (proj2 (Hraise _)).
    unfold OptimizedCalibrationService.frame_energies. split.
    + intros H. apply map_eq_nil in H. apply range_nil_iff in H; lia.
    + intros H. rewrite (proj2 (range_nil_iff _ _ HS)); [reflexivity|lia].
Qed.

End Framing.

(** ** Speech frames *)

Section SpeechFrames.

Lemma filter_all {A : Type} (p : A -> bool) (l : list A) :
  Forall (fun x => p x = true) l -> List.filter p l = l.
Proof.
  induction 1 as [|x l Hx _ IH]; [reflexivity|].
  cbn [List.filter]. now rewrite Hx, IH.
Qed.

(** X15.  The frames both speech detectors hand to the voice-activity
    detector are the consecutive chunks of 640 bytes of the recording, the
    last chunk left out also when it is complete; the length check of the
    loop never fails, and the fast detector skips no frame. *)
Theorem vad_verdicts_chunks {A : Type} (is_speech : list A -> bool)
    (raw_audio : list A) :
  let n := Z.to_nat ((Z.of_nat (List.length raw_audio) - 1) / 640) in
  exists frames : list (list A),
    AudioAnalyzer.vad_verdicts is_speech raw_audio
    = List.map is_speech frames
    /\ OptimizedAudioAnalyzer.vad_verdicts is_speech raw_audio
       = List.map is_speech frames
    /\ List.length frames = n
    /\ Forall (fun frame => List.length frame = 640%nat) frames
    /\ concat frames = firstn (n * 640) raw_audio
    /\ (raw_audio <> [] -> (n * 640 < List.length raw_audio)%nat).
Proof.
  intros n.
  set (frames :=
         List.map (fun i => Python.slice raw_audio i (i + 640))
                  (Python.range 0 (Z.of_nat (List.length raw_audio) - 640)
                                640)).
  assert (Hfull : Forall (fun frame => List.length frame = 640%nat) frames).
  { apply (sliding_frames_full raw_audio 640 640); lia. }
  assert (Hfilter :
            List.filter
              (fun frame => Z.eqb (Z.of_nat (List.length frame)) (320 * 2))
              frames = frames).
  { apply filter_all. eapply Forall_impl; [exact Hfull|].
    intros frame Hlen. cbv beta in *. rewrite Hlen. reflexivity. }
  destruct (tiling_frames raw_audio 640 ltac:(lia)) as (H1 & H2 & H3).
  exists frames.
  split; [|split; [|split; [exact H1|split; [exact Hfull|split]]]].
  - unfold AudioAnalyzer.vad_verdicts. cbv zeta.
    change (320 * 2)%Z with 640%Z in *. fold frames. now rewrite Hfilter.
  - unfold OptimizedAudioAnalyzer.vad_verdicts. cbv zeta.
    change (320 * 2)%Z with 640%Z in *. fold frames. now rewrite Hfilter.
  - exact H2.
  - exact H3.
Qed.

(** X16.  A recording of at most 640 bytes, one frame of 20 ms, is never
    reported as speech, whatever the voice-activity detector answers. *)
Theorem one_frame_recording_is_not_speech {A : Type}
    (is_speech : list A -> bool) (raw_audio : list A) :
  (List.length raw_audio <= 640)%nat ->
  AudioAnalyzer._detect_speech
    (Returned (AudioAnalyzer.vad_verdicts is_speech raw_audio)) = false
  /\ OptimizedAudioAnalyzer._fast_detect_speech
       (Returned (OptimizedAudioAnalyzer.vad_verdicts is_speech raw_audio))
     = false.
Proof.
  intros Hlen.
  assert (Hr : Python.range 0 (Z.of_nat (List.length raw_audio) - 320 * 2)
                            (320 * 2) = []).
  { apply range_nil_iff; lia. }
  unfold AudioAnalyzer.vad_verdicts, OptimizedAudioAnalyzer.vad_verdicts.
  cbv zeta. rewrite Hr. split; reflexivity.
Qed.

End SpeechFrames.

(** ** Sudden onsets and background sounds *)

Section Onset.










End Onset.

Section BackgroundSounds.
Import OptimizedAudioAnalyzer.

Ltac in_labels :=
  repeat match goal with
         | H : In _ [] |- _ => destruct H
         | H : In _ (_ :: _) |- _ => destruct H as [H|H]; [discriminate H|]
         | H : In _ (_ ++ _)%list |- _ => cbn [app] in H
         end.

(** X18.  In both classifiers "typing" and "door" are never reported
    together: one needs a spectral centroid above 1000 Hz, the other a
    centroid below 500 Hz. *)
Theorem typing_and_door_exclude_each_other
    (features : outcome (NumPy.npfloat * Q * Q)) (spectrum : outcome (Q * Q))
    (audio_array : list Q) (fast_features : outcome Spectrum) :
  ~ (In "typing"
        (AudioAnalyzer._detect_background_sounds features spectrum
                                                 audio_array)
     /\ In "door"
          (AudioAnalyzer._detect_background_sounds features spectrum
                                                   audio_array))
  /\ ~ (In "typing" (_fast_detect_background_sounds fast_features)
        /\ In "door" (_fast_detect_background_sounds fast_features)).
Proof.
  split.
  - unfold AudioAnalyzer._detect_background_sounds.
    destruct features as [[[centroid rolloff] zero_crossing_rate]|e];
      [|intros [[] _]].
    destruct (Qltb 0.1 zero_crossing_rate
              && (NumPy.greater centroid 1000 && NumPy.less centroid 4000))
      eqn:Htyping;
      destruct (AudioAnalyzer._detect_phone_frequencies spectrum);
      destruct (NumPy.less centroid 500
                && AudioAnalyzer._detect_sudden_onset audio_array) eqn:Hdoor;
      destruct (Qltb 0.8 rolloff && Qltb 0.05 zero_crossing_rate);
      cbn [app]; intros [H1 H2]; in_labels.
    all: apply andb_true_iff in Htyping as [_ Htyping].
    all: apply andb_true_iff in Htyping as [Hgt _].
    all: apply andb_true_iff in Hdoor as [Hlt _].
    all: destruct centroid as [q| | |]; try discriminate.
    all: apply Qltb_lt in Hgt, Hlt; lra.
  - unfold _fast_detect_background_sounds.
    destruct fast_features as [f|e]; [|intros [[] _]].
    unfold append_if.
    destruct (typing_rule f) eqn:Htyping; destruct (phone_rule f);
      destruct (door_rule f) eqn:Hdoor; destruct (mechanical_rule f);
      cbn [app]; intros [H1 H2]; in_labels.
    all: unfold typing_rule in Htyping; unfold door_rule in Hdoor.
    all: apply andb_true_iff in Htyping as [_ Htyping].
    all: apply andb_true_iff in Htyping as [Hgt _].
    all: apply andb_true_iff in Hdoor as [Hlt _].
    all: apply Qltb_lt in Hgt, Hlt; lra.
Qed.


(** A ratio [band / total] against a bound, for a total that is positive,
    and for a band of a total that may be zero. *)
Lemma greater_divide_positive (x t c : Q) :
  0 < t -> NumPy.greater (NumPy.divide x t) c = true <-> c * t < x.
Proof.
  intros Ht. unfold NumPy.divide.
  assert (Qeq_bool t 0 = false) as ->.
  { apply not_true_is_false. intros H. apply Qeq_bool_iff in H. lra. }
  cbn [NumPy.greater]. rewrite Qltb_lt. split.
  - intros H. apply (Qmult_lt_r _ _ t Ht) in H.
    assert (x / t * t == x) as Hd by (field; lra). lra.
  - intros H. apply Qlt_shift_div_l; assumption.
Qed.

Lemma greater_divide_band (x t c : Q) :
  0 <= x -> x <= t ->
  NumPy.greater (NumPy.divide x t) c = true -> 0 < t.
Proof.
  intros Hx Hxt. unfold NumPy.divide.
  destruct (Qeq_bool t 0) eqn:Ht0.
  - apply Qeq_bool_iff in Ht0.
    assert (Qeq_bool x 0 = true) as -> by (apply Qeq_bool_iff; lra).
    discriminate.
  - intros _. apply Qeq_bool_neq in Ht0. lra.
Qed.

(** X20.  The fast classifier on band energies that are sums of
    magnitudes: "door" is only ever reported alone, and a clip labelled
    "phone" whose zero-crossing rate is above 0.05 is labelled "mechanical"
    as well. *)
Theorem fast_sound_label_combinations (f : Spectrum) :
  0 <= low_energy f -> 0 <= mid_energy f -> 0 <= high_energy f ->
  (In "door" (_fast_detect_background_sounds (Returned f)) ->
   _fast_detect_background_sounds (Returned f) = ["door"])
  /\ (In "phone" (_fast_detect_background_sounds (Returned f)) ->
      0.05 < zcr f ->
      In "mechanical" (_fast_detect_background_sounds (Returned f))).
Proof.
  intros Hl Hm Hh.
  assert (Hlt : low_energy f <= total_energy f)
    by (unfold total_energy; lra).
  assert (Hmt : mid_energy f <= total_energy f)
    by (unfold total_energy; lra).
  unfold _fast_detect_background_sounds, append_if.
  split.
  - destruct (door_rule f) eqn:Hdoor.
    + intros _. unfold door_rule in Hdoor.
      apply andb_true_iff in Hdoor as [Hc Hratio].
      pose proof (greater_divide_band _ _ _ Hl Hlt Hratio) as Hpos.
      apply (greater_divide_positive _ _ _ Hpos) in Hratio.
      apply Qltb_lt in Hc.
      assert (typing_rule f = false) as ->.
      { unfold typing_rule. apply andb_false_iff. right.
        apply andb_false_iff. left. apply Qltb_ge. lra. }
      assert (Hmid : forall c, 0.4 <= c ->
                NumPy.greater
                  (NumPy.divide (mid_energy f) (total_energy f)) c = false).
      { intros c Hc'. apply not_true_is_false. intros H.
        apply (greater_divide_positive _ _ _ Hpos) in H.
        unfold total_energy in *. nra. }
      assert (phone_rule f = false) as ->
        by (apply Hmid; lra).
      assert (mechanical_rule f = false) as ->.
      { unfold mechanical_rule. apply andb_false_iff. right.
        apply Hmid. lra. }
      reflexivity.
    + destruct (typing_rule f); destruct (phone_rule f);
        destruct (mechanical_rule f); cbn [app]; intros H; in_labels.
  - destruct (phone_rule f) eqn:Hphone.
    + intros _ Hz.
      assert (mechanical_rule f = true) as ->.
      { unfold mechanical_rule. apply andb_true_iff. split.
        - now apply Qltb_lt.
        - unfold phone_rule in Hphone.
          destruct (NumPy.divide (mid_energy f) (total_energy f));
            cbn [NumPy.greater] in *; try assumption.
          apply Qltb_lt in Hphone. apply Qltb_lt. lra. }
      destruct (typing_rule f); destruct (door_rule f); cbn [app];
        repeat (first [now left|right]).
    + destruct (typing_rule f); destruct (door_rule f);
        destruct (mechanical_rule f); cbn [app]; intros H; in_labels.
Qed.

End BackgroundSounds.

Section Door.


End Door.

(** ** The logger *)

Section Severity.
Import FaceAnalysisLogger.



Lemma existsb_In (l : list string) (vs : list string) (v : string) :
  In v vs -> contains l v = true -> existsb (contains l) vs = true.
Proof. intros Hin Hc. apply existsb_exists. now exists v. Qed.

(** X8.  The labels [analyze_frame] reports and the severity lists of the
    logger agree: a list with "Face mismatch detected" or "Multiple faces
    found" is ["high"], a list with "Face not detected" or "Face partially
    blocked" is ["high"] or ["medium"], and the labels of
    [_analyze_eye_head_movement] alone are ["low"]. *)
Theorem analyzer_labels_severity (violations : list string) :
  (In "Face mismatch detected" violations
   \/ In "Multiple faces found" violations ->
   _calculate_severity violations = "high")
  /\ (In "Face not detected" violations
      \/ In "Face partially blocked" violations ->
      _calculate_severity violations = "high"
      \/ _calculate_severity violations = "medium")
  /\ (Forall (fun v => In v ["Eyes closed"; "Looking away repeatedly";
                             "Frequent head turns"]) violations ->
      _calculate_severity violations = "low").
Proof.
  unfold _calculate_severity. split; [|split].
  - intros [H|H];
      rewrite (existsb_In high_severity _ _ H eq_refl); reflexivity.
  - intros [H|H];
      rewrite (existsb_In medium_severity _ _ H eq_refl);
      destruct (existsb (contains high_severity) violations); auto.
  - intros H.
    assert (Hnone : forall l, l = high_severity \/ l = medium_severity ->
                         existsb (contains l) violations = false).
    { intros l Hl. apply not_true_is_false. intros He.
      apply existsb_exists in He as [v [Hin Hc]].
      rewrite List.Forall_forall in H. specialize (H v Hin).
      cbn in H. destruct Hl as [-> | ->];
        destruct H as [<-|[<-|[<-|[]]]]; discriminate. }
    rewrite (Hnone high_severity), (Hnone medium_severity); auto.
Qed.

End Severity.

Section LoggerLock.
Import FaceAnalysisLogger.

(** X9.  The lock of the logger.  Called while the lock is free, every
    logging method ends with the lock free again, [log_frame_saved] also
    when its message raises on a [None] path; the one exception is
    [log_analysis_complete] with a violation, which hangs holding the lock.
    Called while the lock is held and not given back, as it is after that
    hang, every method hangs. *)
Theorem logger_lock_discipline (file_path : option string)
    (violations : list string) :
  log_analysis_start false = (Ends (Returned tt), false)
  /\ log_error false = (Ends (Returned tt), false)
  /\ log_alert_state_change false = (Ends (Returned tt), false)
  /\ log_database_operation false = (Ends (Returned tt), false)
  /\ log_reference_face_loaded false = (Ends (Returned tt), false)
  /\ log_service_status false = (Ends (Returned tt), false)
  /\ log_violation false = (Ends (Returned tt), false)
  /\ snd (log_frame_saved file_path false) = false
  /\ log_analysis_complete violations false
     = match violations with
       | [] => (Ends (Returned tt), false)
       | _ :: _ => (Hangs, true)
       end
  /\ log_analysis_start true = (Hangs, true)
  /\ log_error true = (Hangs, true)
  /\ log_alert_state_change true = (Hangs, true)
  /\ log_database_operation true = (Hangs, true)
  /\ log_reference_face_loaded true = (Hangs, true)
  /\ log_service_status true = (Hangs, true)
  /\ log_violation true = (Hangs, true)
  /\ log_frame_saved file_path true = (Hangs, true)
  /\ log_analysis_complete violations true = (Hangs, true).
Proof.
  repeat split; try reflexivity.
  - now destruct file_path.
  - now destruct violations.
Qed.

End LoggerLock.

(** ** Alert states, status and reference faces *)

Section AlertStates.
Import FaceAnalyzer.

Variables user_id alert_type : string.

Local Abbreviation key := (alert_key user_id alert_type).

Lemma active_is_stored (st : gmap string AlertState) (k : string) :
  active (get_state st k) = true -> is_Some (st !! k).
Proof.
  unfold get_state. destruct (st !! k); [eauto|discriminate].
Qed.

(** X1.  A call of [should_trigger_alert] never removes an entry of
    [last_alert_state]: afterwards the dictionary has the keys it had, and
    the key of the call.  A resolved condition keeps its entry, with
    [active] false, until [cleanup_alert_states]. *)
Theorem should_trigger_alert_keeps_entries (now : Q) (condition_active : bool)
    (st : gmap string AlertState) :
  dom (snd (should_trigger_alert now user_id alert_type condition_active st))
  = {[ key ]} ∪ dom st.
Proof.
  unfold should_trigger_alert.
  destruct condition_active;
    [destruct (negb (active (get_state st key))) eqn:Hact;
     [|destruct (Qltb _ _)]|];
    cbn [snd]; try apply dom_insert_L.
  apply negb_false_iff, active_is_stored, elem_of_dom in Hact.
  apply set_eq. intros k. rewrite elem_of_union, elem_of_singleton.
  split; [now right|intros [->|H]; assumption].
Qed.

Lemma filter_submseteq {A : Type} (p : A -> bool) (l1 l2 : list A) :
  l1 ⊆+ l2 -> List.filter p l1 ⊆+ List.filter p l2.
Proof.
  induction 1 as [|x l1 l2 _ IH|x y l|x l1 l2 _ IH|l1 l2 l3 _ IH1 _ IH2];
    cbn [List.filter].
  - constructor.
  - destruct (p x); [now constructor|exact IH].
  - destruct (p x), (p y); try reflexivity. apply submseteq_swap.
  - destruct (p x); [now apply submseteq_cons|exact IH].
  - now transitivity (List.filter p l2).
Qed.

Lemma cleanup_subseteq (u : string) (st : gmap string AlertState) :
  cleanup_alert_states u st ⊆ st.
Proof.
  apply map_subseteq_spec. intros k v.
  rewrite lookup_cleanup_alert_states.
  now destruct (String.prefix (u +:+ "_") k).
Qed.

Lemma active_alerts_mono (rc1 rc2 : gmap string Encoding)
    (st1 st2 : gmap string AlertState) :
  st1 ⊆ st2 ->
  (active_alerts (get_status rc1 st1) <= active_alerts (get_status rc2 st2))%nat.
Proof.
  intros Hsub. cbn [get_status active_alerts].
  apply submseteq_length, filter_submseteq, fmap_submseteq.
  now apply map_to_list_submseteq.
Qed.

(** X5.  In [get_status], [active_alerts] never exceeds
    [total_alert_states]; a cleanup increases neither of them and leaves
    [cached_references] as it is (the reference cache is not cleaned). *)
Theorem status_counts (reference_cache : gmap string Encoding)
    (st : gmap string AlertState) (u : string) :
  (active_alerts (get_status reference_cache st)
   <= total_alert_states (get_status reference_cache st))%nat
  /\ (total_alert_states
        (get_status reference_cache (cleanup_alert_states u st))
      <= total_alert_states (get_status reference_cache st))%nat
  /\ (active_alerts (get_status reference_cache (cleanup_alert_states u st))
      <= active_alerts (get_status reference_cache st))%nat
  /\ cached_references
       (get_status reference_cache (cleanup_alert_states u st))
     = cached_references (get_status reference_cache st).
Proof.
  split; [|split; [|split]].
  - cbn [get_status active_alerts total_alert_states].
    etransitivity; [apply List.filter_length_le|].
    rewrite length_fmap. unfold size, map_size. 
    now rewrite length_map_to_list.
  - cbn [get_status total_alert_states].
    apply map_subseteq_size, cleanup_subseteq.
  - apply active_alerts_mono, cleanup_subseteq.
  - reflexivity.
Qed.

(** X2.  While a condition stays true, whatever the clock reads at the
    successive calls and whatever the dictionary held before, the times at
    which [should_trigger_alert] returns [True] for one subject and alert
    type are pairwise more than [ALERT_COOLDOWN] seconds apart; and when the
    track is active at the start, each of them is more than
    [ALERT_COOLDOWN] seconds after its [last_time]. *)
Theorem alerts_of_a_streak_are_spaced (times : list Q)
    (st : gmap string AlertState) :
  StronglySorted (fun earlier later => ALERT_COOLDOWN < later - earlier)
                 (alert_times user_id alert_type times st)
  /\ (active (get_state st key) = true ->
      Forall (fun later =>
                ALERT_COOLDOWN < later - last_time (get_state st key))
             (alert_times user_id alert_type times st)).
Proof.
  revert st. induction times as [|now times IH]; intros st.
  - split; [constructor|intros _; constructor].
  - cbn [alert_times].
    destruct (active (get_state st key)) eqn:Hact.
    + destruct (Qltb ALERT_COOLDOWN (now - last_time (get_state st key)))
        eqn:Hcool.
      * apply Qltb_lt in Hcool.
        destruct (after_cooldown_emits now user_id alert_type st Hact Hcool)
          as (st' & Hst' & Hget).
        rewrite Hst'. cbn [fst snd app].
        destruct (IH st') as [Hs Hf]. rewrite Hget in Hf. cbn in Hf.
        specialize (Hf eq_refl).
        split; [constructor; assumption|].
        intros _. constructor; [exact Hcool|].
        eapply Forall_impl; [exact Hf|].
        intros later Hlater. cbv beta in *. unfold ALERT_COOLDOWN in *. lra.
      * apply Qltb_ge in Hcool.
        rewrite (within_cooldown_suppressed now user_id alert_type st Hact
                                            Hcool).
        cbn [fst snd app]. destruct (IH st) as [Hs Hf]. split; auto.
    + destruct (first_occurrence_emits now user_id alert_type st Hact)
        as (st' & Hst' & Hget).
      rewrite Hst'. cbn [fst snd app].
      destruct (IH st') as [Hs Hf]. rewrite Hget in Hf. cbn in Hf.
      specialize (Hf eq_refl).
      split; [constructor; assumption|discriminate].
Qed.

(** X3.  A resolve and a cleanup both forget the cooldown: after
    [should_trigger_alert(user_id, alert_type, False)], and after
    [cleanup_alert_states(user_id)], the next true condition returns [True]
    at once, whatever the clock reads. *)
Theorem cooldown_is_forgotten (resolved_at now : Q)
    (st : gmap string AlertState) :
  fst (should_trigger_alert now user_id alert_type true
         (snd (should_trigger_alert resolved_at user_id alert_type false st)))
  = true
  /\ fst (should_trigger_alert now user_id alert_type true
            (cleanup_alert_states user_id st)) = true.
Proof.
  split.
  - destruct (resolved_resets resolved_at user_id alert_type st)
      as (st' & Hst' & Hact).
    rewrite Hst'. cbn [snd].
    destruct (first_occurrence_emits now user_id alert_type st' Hact)
      as (st'' & -> & _).
    reflexivity.
  - assert (Hact : active (get_state (cleanup_alert_states user_id st) key)
                   = false).
    { unfold get_state. now rewrite cleanup_removes_subject. }
    destruct (first_occurrence_emits now user_id alert_type _ Hact)
      as (st'' & -> & _).
    reflexivity.
Qed.

(** X4.  [cleanup_alert_states] is idempotent, the cleanups of two subjects
    commute, and a cleanup only removes entries: what is left is a
    sub-dictionary of what was there. *)
Theorem cleanup_alert_states_algebra (other : string)
    (st : gmap string AlertState) :
  cleanup_alert_states user_id (cleanup_alert_states user_id st)
  = cleanup_alert_states user_id st
  /\ cleanup_alert_states user_id (cleanup_alert_states other st)
     = cleanup_alert_states other (cleanup_alert_states user_id st)
  /\ cleanup_alert_states user_id st ⊆ st.
Proof.
  split; [|split].
  - apply map_eq. intros k. rewrite !lookup_cleanup_alert_states.
    now destruct (String.prefix (user_id +:+ "_") k).
  - apply map_eq. intros k. rewrite !lookup_cleanup_alert_states.
    now destruct (String.prefix (user_id +:+ "_") k),
      (String.prefix (other +:+ "_") k).
  - apply cleanup_subseteq.
Qed.

End AlertStates.

Section ReferenceFaces.
Import FaceAnalyzer.

(** The three ways a lookup ends: a hit, a miss that loads and caches an
    encoding, and a miss that finds none. *)
Lemma get_reference_face_cases (db : ReferenceSource) (user_id : string)
    (reference_cache : gmap string Encoding) :
  (exists cached,
     reference_cache !! user_id = Some cached
     /\ get_reference_face db user_id reference_cache
        = (Some cached, reference_cache))
  \/ (exists face_encoding,
        reference_cache !! user_id = None
        /\ get_reference_face db user_id reference_cache
           = (Some face_encoding, <[user_id := face_encoding]> reference_cache))
  \/ (reference_cache !! user_id = None
      /\ get_reference_face db user_id reference_cache
         = (None, reference_cache)).
Proof.
  unfold get_reference_face.
  destruct (reference_cache !! user_id) as [cached|] eqn:Hc; [left; eauto|].
  right.
  destruct (negb (connection db)); [right; auto|].
  destruct (verified_session db) as [[[face_filename|]|]|e];
    [|right; auto..].
  destruct (String.eqb face_filename ""); [right; auto|].
  destruct (_load_reference_image db face_filename) as [image|];
    [|right; auto].
  destruct (_get_face_encoding db image) as [face_encoding|];
    [left; eauto|right; auto].
Qed.

(** X6.  [get_reference_face] and its cache.  An encoding that is returned
    is in the cache under [user_id] afterwards, and every later lookup
    returns it whatever the database and the image store then hold; a lookup
    that returns [None] leaves the cache as it was, so a failure is looked up
    again; the entries of other subjects are never touched. *)
Theorem reference_cache_round_trip (db : ReferenceSource) (user_id : string)
    (reference_cache : gmap string Encoding) :
  let r := get_reference_face db user_id reference_cache in
  match fst r with
  | Some face_encoding =>
      snd r !! user_id = Some face_encoding
      /\ forall db' : ReferenceSource,
           get_reference_face db' user_id (snd r)
           = (Some face_encoding, snd r)
  | None => snd r = reference_cache /\ reference_cache !! user_id = None
  end
  /\ forall other, other <> user_id ->
       snd r !! other = reference_cache !! other.
Proof.
  cbv zeta.
  assert (Hhit : forall (cache : gmap string Encoding) e db',
             cache !! user_id = Some e ->
             get_reference_face db' user_id cache = (Some e, cache)).
  { intros cache e db' H. unfold get_reference_face. now rewrite H. }
  destruct (get_reference_face_cases db user_id reference_cache)
    as [(cached & Hc & ->)|[(face_encoding & Hc & ->)|(Hc & ->)]];
    cbn [fst snd].
  - split; [|reflexivity]. split; [exact Hc|].
    intros db'. now apply Hhit.
  - split.
    + split; [apply lookup_insert_eq|].
      intros db'. apply Hhit, lookup_insert_eq.
    + intros other Hne. now apply lookup_insert_ne.
  - auto.
Qed.

End ReferenceFaces.

(** ** Noise analysis *)

Section Percentiles.

Lemma insort_In (x y : Q) (l : list Q) :
  In y (NumPy.insort x l) <-> y = x \/ In y l.
Proof.
  induction l as [|z l IH]; cbn [NumPy.insort].
  - cbn. intuition.
  - destruct (Qle_bool x z); cbn [In]; [intuition|].
    rewrite IH. intuition.
Qed.

Lemma sort_In (y : Q) (a : list Q) : In y (NumPy.sort a) <-> In y a.
Proof.
  induction a as [|x a IH]; [reflexivity|].
  change (NumPy.sort (x :: a)) with (NumPy.insort x (NumPy.sort a)).
  rewrite insort_In, IH. cbn. intuition.
Qed.

Lemma insort_sorted (x : Q) (l : list Q) :
  StronglySorted Qle l -> StronglySorted Qle (NumPy.insort x l).
Proof.
  induction 1 as [|z l Hs IH Hz]; cbn [NumPy.insort].
  - repeat constructor.
  - destruct (Qle_bool x z) eqn:Hxz.
    + apply Qle_bool_iff in Hxz. constructor; [now constructor|].
      constructor; [assumption|].
      eapply Forall_impl; [exact Hz|]. intros w Hw. cbv beta in *. lra.
    + assert (z <= x) as Hzx.
      { destruct (Qlt_le_dec x z) as [Hlt|]; [|assumption].
        exfalso. assert (Qle_bool x z = true) by (apply Qle_bool_iff; lra).
        congruence. }
      constructor; [assumption|].
      apply List.Forall_forall. intros w Hw. apply insort_In in Hw as [->|Hw].
      * assumption.
      * rewrite List.Forall_forall in Hz. now apply Hz.
Qed.

Lemma sort_sorted (a : list Q) : StronglySorted Qle (NumPy.sort a).
Proof.
  induction a as [|x a IH]; [constructor|].
  change (NumPy.sort (x :: a)) with (NumPy.insort x (NumPy.sort a)).
  now apply insort_sorted.
Qed.

Lemma sorted_nth (s : list Q) (d : Q) (i j : nat) :
  StronglySorted Qle s -> (i <= j < List.length s)%nat ->
  nth i s d <= nth j s d.
Proof.
  intros Hs. revert i j. induction Hs as [|x s Hs IH Hx]; intros i j Hij.
  - cbn in Hij. lia.
  - destruct i as [|i], j as [|j]; cbn [nth List.length] in *.
    + lra.
    + rewrite List.Forall_forall in Hx. apply Hx, nth_In. lia.
    + lia.
    + apply IH. lia.
Qed.

(** The value [np.percentile] interpolates at a virtual index. *)
Lemma percentile_value (a : list Q) (q v : Q) :
  NumPy.percentile a q = Some v ->
  exists x0 s,
    NumPy.sort a = x0 :: s
    /\ let sorted := x0 :: s in
       let n := List.length sorted in
       let virtual_index := q / 100 * (inject_Z (Z.of_nat n) - 1) in
       let previous := Z.to_nat (Qfloor virtual_index) in
       let next := Nat.min (S previous) (n - 1) in
       v = nth previous sorted x0
           + (nth next sorted x0 - nth previous sorted x0)
             * (virtual_index - inject_Z (Qfloor virtual_index)).
Proof.
  unfold NumPy.percentile. destruct (NumPy.sort a) as [|x0 s]; [discriminate|].
  intros [= <-]. now exists x0, s.
Qed.

Lemma percentile_monotone (a : list Q) (q1 q2 v1 v2 : Q) :
  0 <= q1 -> q1 <= q2 -> q2 <= 100 ->
  NumPy.percentile a q1 = Some v1 -> NumPy.percentile a q2 = Some v2 ->
  v1 <= v2.
Proof.
  intros H0 H12 H100 Hv1 Hv2.
  apply percentile_value in Hv1 as (x0 & s & Hs & Hv1).
  apply percentile_value in Hv2 as (x0' & s' & Hs' & Hv2).
  rewrite Hs in Hs'. injection Hs' as <- <-.
  pose proof (sort_sorted a) as Hsorted. rewrite Hs in Hsorted.
  cbv zeta in Hv1, Hv2.
  set (sorted := x0 :: s) in *.
  set (n := List.length sorted) in *.
  assert (Hn : (1 <= n)%nat) by (subst n sorted; cbn; lia).
  set (m := inject_Z (Z.of_nat n) - 1) in *.
  assert (Hm : 0 <= m).
  { subst m. assert (inject_Z 1 <= inject_Z (Z.of_nat n))
      by (rewrite <- Zle_Qle; lia).
    change (inject_Z 1) with 1 in H. lra. }
  set (w1 := q1 / 100 * m) in *. set (w2 := q2 / 100 * m) in *.
  assert (Hq1 : 0 <= q1 / 100) by (apply Qle_shift_div_l; lra).
  assert (Hq12 : q1 / 100 <= q2 / 100).
  { apply Qle_shift_div_l; [lra|].
    assert (q1 / 100 * 100 == q1) as -> by field. assumption. }
  assert (Hq2 : q2 / 100 <= 1) by (apply Qle_shift_div_r; lra).
  assert (Hw1 : 0 <= w1) by (subst w1; nra).
  assert (Hw12 : w1 <= w2) by (subst w1 w2; nra).
  assert (Hw2 : w2 <= m) by (subst w2; nra).
  pose proof (Qfloor_le w1) as Hf1. pose proof (Qlt_floor w1) as Hc1.
  pose proof (Qfloor_le w2) as Hf2. pose proof (Qlt_floor w2) as Hc2.
  pose proof (Qfloor_resp_le _ _ Hw12) as Hk12.
  assert (Hk1 : (0 <= Qfloor w1)%Z).
  { change 0%Z with (Qfloor 0). now apply Qfloor_resp_le. }
  assert (Hk2 : (Qfloor w2 <= Z.of_nat n - 1)%Z).
  { assert (Qfloor w2 <= Qfloor m)%Z by now apply Qfloor_resp_le.
    assert (Qfloor m = Z.of_nat n - 1)%Z; [|lia].
    subst m. replace (inject_Z (Z.of_nat n) - 1) with
      (inject_Z (Z.of_nat n - 1)).
    - apply Qfloor_Z.
    - unfold Zminus. rewrite inject_Z_plus. reflexivity. }
  rewrite inject_Z_plus in Hc1, Hc2.
  change (inject_Z 1) with 1 in Hc1, Hc2.
  set (k1 := Qfloor w1) in *. set (k2 := Qfloor w2) in *.
  set (p1 := Z.to_nat k1) in *. set (p2 := Z.to_nat k2) in *.
  assert (Hp12 : (p1 <= p2)%nat) by (subst p1 p2; lia).
  assert (Hp2 : (p2 < n)%nat) by (subst p2; lia).
  set (g1 := w1 - inject_Z k1) in *. set (g2 := w2 - inject_Z k2) in *.
  assert (Hg1 : 0 <= g1 /\ g1 < 1) by (subst g1; lra).
  assert (Hg2 : 0 <= g2 /\ g2 < 1) by (subst g2; lra).
  set (n1 := Nat.min (S p1) (n - 1)) in *.
  set (n2 := Nat.min (S p2) (n - 1)) in *.
  assert (Hs1 : nth p1 sorted x0 <= nth n1 sorted x0)
    by (apply sorted_nth; [assumption|subst n1; lia]).
  assert (Hs2 : nth p2 sorted x0 <= nth n2 sorted x0)
    by (apply sorted_nth; [assumption|subst n2; lia]).
  subst v1 v2.
  destruct (Z.eq_dec k1 k2) as [Heq|Hne].
  - assert (p1 = p2) as Hp by (subst p1 p2; congruence).
    assert (g1 <= g2) by (subst g1 g2; rewrite Heq; lra).
    subst n1 n2. rewrite Hp in *. nra.
  - assert (Hn1p2 : nth n1 sorted x0 <= nth p2 sorted x0).
    { apply sorted_nth; [assumption|]. subst n1 p1 p2. lia. }
    nra.
Qed.


Lemma percentile_between (a : list Q) (q v lo hi : Q) :
  0 <= q -> q <= 100 ->
  Forall (fun e => lo <= e /\ e <= hi) a ->
  NumPy.percentile a q = Some v ->
  lo <= v /\ v <= hi.
Proof.
  intros H0 H100 Ha Hv.
  apply percentile_value in Hv as (x0 & s & Hs & Hv).
  pose proof (sort_sorted a) as Hsorted. rewrite Hs in Hsorted.
  assert (Hin : forall i, (i < List.length (x0 :: s))%nat ->
                     lo <= nth i (x0 :: s) x0 /\ nth i (x0 :: s) x0 <= hi).
  { intros i Hi. rewrite List.Forall_forall in Ha. apply Ha.
    apply sort_In. rewrite Hs. now apply nth_In. }
  cbv zeta in Hv.
  set (sorted := x0 :: s) in *.
  set (n := List.length sorted) in *.
  assert (Hn : (1 <= n)%nat) by (subst n sorted; cbn; lia).
  set (m := inject_Z (Z.of_nat n) - 1) in *.
  assert (Hm : 0 <= m).
  { subst m. assert (inject_Z 1 <= inject_Z (Z.of_nat n))
      by (rewrite <- Zle_Qle; lia).
    change (inject_Z 1) with 1 in H. lra. }
  set (w := q / 100 * m) in *.
  assert (Hq1 : 0 <= q / 100) by (apply Qle_shift_div_l; lra).
  assert (Hq2 : q / 100 <= 1) by (apply Qle_shift_div_r; lra).
  assert (Hw1 : 0 <= w) by (subst w; nra).
  assert (Hw2 : w <= m) by (subst w; nra).
  pose proof (Qfloor_le w) as Hf. pose proof (Qlt_floor w) as Hc.
  assert (Hk1 : (0 <= Qfloor w)%Z).
  { change 0%Z with (Qfloor 0). now apply Qfloor_resp_le. }
  assert (Hk2 : (Qfloor w <= Z.of_nat n - 1)%Z).
  { assert (Qfloor w <= Qfloor m)%Z by now apply Qfloor_resp_le.
    assert (Qfloor m = Z.of_nat n - 1)%Z; [|lia].
    subst m. replace (inject_Z (Z.of_nat n) - 1) with
      (inject_Z (Z.of_nat n - 1)).
    - apply Qfloor_Z.
    - unfold Zminus. rewrite inject_Z_plus. reflexivity. }
  rewrite inject_Z_plus in Hc. change (inject_Z 1) with 1 in Hc.
  set (k := Qfloor w) in *. set (p := Z.to_nat k) in *.
  assert (Hp : (p < n)%nat) by (subst p; lia).
  set (g := w - inject_Z k) in *.
  assert (Hg : 0 <= g /\ g < 1) by (subst g; lra).
  set (nx := Nat.min (S p) (n - 1)) in *.
  assert (Hs1 : nth p sorted x0 <= nth nx sorted x0)
    by (apply sorted_nth; [assumption|subst nx; lia]).
  destruct (Hin p Hp) as [Hlo1 Hhi1].
  destruct (Hin nx ltac:(subst nx; lia)) as [Hlo2 Hhi2].
  subst v. split; nra.
Qed.

(** X12.  When the noise analysis returns, the noise floor is not above
    the noise ceiling, both lie between any bounds of the frame energies,
    and the optimized service returns the same analysis. *)
Theorem noise_floor_is_below_noise_ceiling (rms : Q)
    (frame_energies : list Q) (noise_analysis : NoiseAnalysis) (lo hi : Q) :
  CalibrationService._analyze_background_noise rms frame_energies
  = Returned noise_analysis ->
  OptimizedCalibrationService._fast_noise_analysis rms frame_energies
  = Returned noise_analysis
  /\ noise_floor noise_analysis <= noise_ceiling noise_analysis
  /\ (Forall (fun e => lo <= e /\ e <= hi) frame_energies ->
      lo <= noise_floor noise_analysis
      /\ noise_ceiling noise_analysis <= hi).
Proof.
  unfold CalibrationService._analyze_background_noise,
    OptimizedCalibrationService._fast_noise_analysis.
  destruct (NumPy.percentile frame_energies 10) as [floor|] eqn:Hf;
    [|discriminate].
  destruct (NumPy.percentile frame_energies 90) as [ceiling|] eqn:Hc;
    [|discriminate].
  intros [= <-]. cbn [noise_floor noise_ceiling].
  split; [reflexivity|]. split.
  - apply (percentile_monotone frame_energies 10 90); try assumption; lra.
  - intros Hall. split.
    + apply (percentile_between frame_energies 10 floor lo hi);
        try assumption; lra.
    + apply (percentile_between frame_energies 90 ceiling lo hi);
        try assumption; lra.
Qed.

End Percentiles.

Section NoiseLevels.

Ltac volume_cases :=
  unfold AudioAnalyzer._analyze_volume,
    OptimizedAudioAnalyzer._fast_analyze_volume,
    CalibrationService._calculate_thresholds,
    OptimizedCalibrationService._fast_calculate_thresholds;
  cbv zeta; cbn [low medium high];
  repeat match goal with
         | |- context [Qltb ?a ?b] => destruct (Qltb_spec a b)
         | H : context [Qltb ?a ?b] |- _ => destruct (Qltb_spec a b)
         end.

Lemma tick_below_floor_is_not_high (noise_analysis : NoiseAnalysis) (rms : Q) :
  0 <= noise_floor noise_analysis ->
  rms <= noise_floor noise_analysis ->
  AudioAnalyzer._analyze_volume rms
    (CalibrationService._calculate_thresholds noise_analysis) <> High
  /\ OptimizedAudioAnalyzer._fast_analyze_volume rms
       (OptimizedCalibrationService._fast_calculate_thresholds
          noise_analysis) <> High.
Proof.
  intros Hf Hrms. split; volume_cases; try discriminate; exfalso; lra.
Qed.

(** X13.  Where the calibration noise itself falls, for a non-negative
    noise floor: a tick no louder than the noise floor is never ["high"];
    a tick as loud as the noise ceiling is ["high"] whenever
    [1.6 * noise_floor + 0.01 <= 0.6 * noise_ceiling], that is, when the
    medium threshold is the one calculated from the floor and the
    ceiling. *)
Theorem calibration_noise_levels (noise_analysis : NoiseAnalysis) (rms : Q) :
  0 <= noise_floor noise_analysis ->
  (rms <= noise_floor noise_analysis ->
   AudioAnalyzer._analyze_volume rms
     (CalibrationService._calculate_thresholds noise_analysis) <> High
   /\ OptimizedAudioAnalyzer._fast_analyze_volume rms
        (OptimizedCalibrationService._fast_calculate_thresholds
           noise_analysis) <> High)
  /\ (1.6 * noise_floor noise_analysis + 0.01
      <= 0.6 * noise_ceiling noise_analysis ->
      AudioAnalyzer._analyze_volume (noise_ceiling noise_analysis)
        (CalibrationService._calculate_thresholds noise_analysis) = High
      /\ OptimizedAudioAnalyzer._fast_analyze_volume
           (noise_ceiling noise_analysis)
           (OptimizedCalibrationService._fast_calculate_thresholds
              noise_analysis) = High).
Proof.
  intros Hf. split.
  - now apply tick_below_floor_is_not_high.
  - intros Hgap. split; volume_cases; try reflexivity; exfalso; lra.
Qed.

End NoiseLevels.

Section BandEnergies.


End BandEnergies.

(** ** The endpoints *)

Section Endpoints.
Import Main.

(** X21.  Every failure of [POST /calibrate], [POST /analyze] and
    [POST /analyze-face] reaches the client with status 500: the
    [HTTPException] with status 400 that the endpoints raise for a missing
    calibration or a wrong content type is raised inside the [try] and
    caught by its [except Exception]. *)
Theorem endpoints_fail_with_500 (content_type : option string)
    (calibration : outcome Thresholds) (calibration_data : option Thresholds)
    (clip : outcome OptimizedAudioAnalyzer.Clip)
    (save_audio_file : outcome string) (clock : string -> Q)
    (frame : FaceAnalyzer.FrameObservation) (user_id : string)
    (st : gmap string FaceAnalyzer.AlertState) (status_code : nat) :
  (fst (calibrate_audio content_type calibration calibration_data)
   = HTTPException status_code
   \/ analyze_audio calibration_data content_type clip save_audio_file
      = HTTPException status_code
   \/ fst (analyze_face content_type clock frame user_id st)
      = Responds (HTTPException status_code) ->
   status_code = 500%nat)
  /\ analyze_audio None content_type clip save_audio_file = HTTPException 500
  /\ (invalid_content_type "audio/" content_type = true ->
      fst (calibrate_audio content_type calibration calibration_data)
      = HTTPException 500
      /\ analyze_audio calibration_data content_type clip save_audio_file
         = HTTPException 500)
  /\ (invalid_content_type "image/" content_type = true ->
      fst (analyze_face content_type clock frame user_id st)
      = Responds (HTTPException 500)).
Proof.
  assert (H500 : forall (A : Type) (body : attempt A) code,
             internal_error_on_exception body = HTTPException code ->
             code = 500%nat).
  { intros A [a|e] code; cbn; congruence. }
  split; [|split; [reflexivity|split]].
  - intros [H|[H|H]].
    + unfold calibrate_audio in H.
      destruct (invalid_content_type "audio/" content_type);
        [|destruct calibration]; cbn in H; congruence.
    + eapply H500, H.
    + unfold analyze_face in H.
      destruct (invalid_content_type "image/" content_type).
      * cbn in H. congruence.
      * destruct (FaceAnalyzer.analyze_frame clock frame user_id st)
          as [[[r|e]|] st']; cbn in H; congruence.
  - intros Hct. unfold calibrate_audio, analyze_audio. rewrite Hct.
    split; [reflexivity|]. now destruct calibration_data.
  - intros Hct. unfold analyze_face. now rewrite Hct.
Qed.

(** X22.  The stored calibration is replaced by a successful calibration
    only: a request that fails leaves [calibration_data] as it was, and a
    request that succeeds stores what it answers. *)
Theorem calibration_data_is_kept (content_type : option string)
    (calibration : outcome Thresholds) (calibration_data : option Thresholds) :
  let r := calibrate_audio content_type calibration calibration_data in
  match fst r with
  | OK thresholds =>
      snd r = Some thresholds
      /\ calibration = Returned thresholds
      /\ invalid_content_type "audio/" content_type = false
  | HTTPException _ => snd r = calibration_data
  end.
Proof.
  unfold calibrate_audio.
  destruct (invalid_content_type "audio/" content_type);
    [|destruct calibration]; cbn; auto.
Qed.

(** X23.  What a successful [POST /analyze] saves: the body carries the
    analysis of the clip, [file_saved] is true exactly when the level is
    ["high"], speech is detected or a background sound is labelled, and the
    body carries the path [save_audio_file] returned exactly then. *)
Theorem analyze_audio_saves_suspicious_clips (thresholds : Thresholds)
    (content_type : option string)
    (clip : outcome OptimizedAudioAnalyzer.Clip)
    (save_audio_file : outcome string) (body : AnalyzeBody) :
  analyze_audio (Some thresholds) content_type clip save_audio_file
  = OK body ->
  exists c,
    clip = Returned c
    /\ OptimizedAudioAnalyzer.analyze clip thresholds
       = Returned (analysis body)
    /\ (file_saved body = true <->
        OptimizedAudioAnalyzer._fast_analyze_volume
          (OptimizedAudioAnalyzer.clip_rms_energy c) thresholds = High
        \/ OptimizedAudioAnalyzer._fast_detect_speech
             (OptimizedAudioAnalyzer.clip_verdicts c) = true
        \/ OptimizedAudioAnalyzer._fast_detect_background_sounds
             (OptimizedAudioAnalyzer.clip_features c) <> [])
    /\ (if file_saved body
        then exists filepath,
               save_audio_file = Returned filepath
               /\ saved_file_path body = Some filepath
        else saved_file_path body = None).
Proof.
  unfold analyze_audio.
  destruct (invalid_content_type "audio/" content_type); [discriminate|].
  destruct clip as [c|e]; [|discriminate].
  cbn [OptimizedAudioAnalyzer.analyze internal_error_on_exception].
  cbv zeta.
  cbn [OptimizedAudioAnalyzer.analysis_volume_level
         OptimizedAudioAnalyzer.human_speech_detected
         OptimizedAudioAnalyzer.suspicious_sounds_detected].
  remember (OptimizedAudioAnalyzer._fast_analyze_volume
              (OptimizedAudioAnalyzer.clip_rms_energy c) thresholds)
    as level eqn:Hlevel.
  remember (OptimizedAudioAnalyzer._fast_detect_speech
              (OptimizedAudioAnalyzer.clip_verdicts c))
    as speech eqn:Hspeech.
  remember (OptimizedAudioAnalyzer._fast_detect_background_sounds
              (OptimizedAudioAnalyzer.clip_features c))
    as sounds eqn:Hsnd.
  assert (Hsounds : Nat.ltb 0 (List.length sounds) = true <-> sounds <> []).
  { destruct sounds; cbn; split; congruence. }
  destruct (match level with High => true | _ => false end
            || speech || Nat.ltb 0 (List.length sounds)) eqn:Hsave.
  - destruct save_audio_file as [filepath|e]; [|discriminate].
    cbn. intros [= <-]. exists c. cbn [analysis file_saved saved_file_path].
    rewrite <- Hlevel, <- Hspeech, <- Hsnd.
    split; [reflexivity|]. split; [reflexivity|]. split; [|eauto].
    split; [intros _|reflexivity].
    apply orb_true_iff in Hsave as [Hsave|Hsave];
      [apply orb_true_iff in Hsave as [Hsave|Hsave]|].
    + left. now destruct level.
    + right. now left.
    + right. right. now apply Hsounds.
  - cbn. intros [= <-]. exists c. cbn [analysis file_saved saved_file_path].
    rewrite <- Hlevel, <- Hspeech, <- Hsnd.
    split; [reflexivity|]. split; [reflexivity|]. split; [|reflexivity].
    split; [discriminate|].
    apply orb_false_iff in Hsave as [Hsave Hs3].
    apply orb_false_iff in Hsave as [Hs1 Hs2].
    intros [H|[H|H]].
    + rewrite H in Hs1. discriminate.
    + congruence.
    + apply Hsounds in H. congruence.
Qed.

(** X24.  [POST /analyze-face] with an image content type never answers
    with an error status: it answers 200 with an analysis that lists no
    violation, also when the analysis itself reports an error (a frame that
    cannot be decoded), or it does not answer. *)
Theorem analyze_face_answers_200_or_never (content_type : option string)
    (clock : string -> Q) (frame : FaceAnalyzer.FrameObservation)
    (user_id : string) (st : gmap string FaceAnalyzer.AlertState) :
  invalid_content_type "image/" content_type = false ->
  ((exists analysis_result,
      fst (analyze_face content_type clock frame user_id st)
      = Responds (OK analysis_result)
      /\ FaceAnalyzer.violations analysis_result = [])
   \/ fst (analyze_face content_type clock frame user_id st) = NeverResponds)
  /\ (FaceAnalyzer.decoded frame = Returned false ->
      analyze_face content_type clock frame user_id st
      = (Responds (OK FaceAnalyzer.DecodeError), st)).
Proof.
  intros Hct. unfold analyze_face. rewrite Hct. split.
  - pose proof (returned_result_has_no_violation clock frame user_id st)
      as Hret.
    pose proof (analyze_frame_never_raises clock frame user_id st) as Hraise.
    destruct (FaceAnalyzer.analyze_frame clock frame user_id st)
      as [[[r|e]|] st']; cbn [fst] in *.
    + left. exists r. split; [reflexivity|]. now apply Hret.
    + now destruct (Hraise e).
    + now right.
  - intros Hd.
    destruct (decode_failure_returns_error clock frame user_id st Hd)
      as [-> _].
    reflexivity.
Qed.

End Endpoints.

Section QuietClips.
Import Main OptimizedAudioAnalyzer.

(** X25.  End to end through calibration thresholds, analysis and
    endpoint: a clip no louder than the calibrated noise floor, without
    speech and without spectral energy, is answered with status 200 and is
    not saved, whatever [save_audio_file] would do. *)
Theorem quiet_clip_is_not_saved (noise_analysis : NoiseAnalysis)
    (content_type : option string) (c : Clip) (f : Spectrum)
    (save_audio_file : outcome string) :
  invalid_content_type "audio/" content_type = false ->
  0 <= noise_floor noise_analysis ->
  clip_rms_energy c <= noise_floor noise_analysis ->
  _fast_detect_speech (clip_verdicts c) = false ->
  clip_features c = Returned f ->
  0 <= low_energy f -> 0 <= mid_energy f -> 0 <= high_energy f ->
  total_energy f == 0 ->
  exists analysis_result,
    analyze_audio
      (Some (OptimizedCalibrationService._fast_calculate_thresholds
               noise_analysis))
      content_type (Returned c) save_audio_file
    = OK (mkAnalyzeBody analysis_result false None)
    /\ analysis_volume_level analysis_result <> High
    /\ detected_background_sounds analysis_result = [].
Proof.
  intros Hct Hfloor Hrms Hspeech Hfeatures Hl Hm Hh Htotal.
  destruct (tick_below_floor_is_not_high noise_analysis (clip_rms_energy c)
              Hfloor Hrms) as [_ Hlevel].
  unfold analyze_audio. rewrite Hct. cbn [analyze]. cbv zeta.
  rewrite Hspeech, Hfeatures, (zero_energy_no_labels f Hl Hm Hh Htotal).
  cbn [List.length Nat.ltb Nat.leb analysis_volume_level human_speech_detected
         suspicious_sounds_detected orb].
  destruct (_fast_analyze_volume (clip_rms_energy c)
              (OptimizedCalibrationService._fast_calculate_thresholds
                 noise_analysis)) eqn:Hv; [| |congruence];
    cbn; eexists; (split; [reflexivity|]); cbn; split; congruence.
Qed.

End QuietClips.

(** ** Instances of the properties above *)

(** A clip of 3200 samples at 16 kHz gives one frame, not two. *)
Lemma frame_energies_chunks_witness :
  (10 <= 16000)%Z
  /\ exists frames : list (list Q),
       CalibrationService.frame_energies NumPy.sum (List.repeat 0 3200) 16000
       = List.map NumPy.sum frames
       /\ List.length frames = 1%nat
       /\ concat frames = firstn 1600 (List.repeat 0 3200).
Proof.
  split; [lia|].
  destruct (frame_energies_chunks NumPy.sum (List.repeat 0 3200) 16000
              ltac:(lia)) as (frames & H1 & H2 & _ & H4 & _).
  exists frames. split; [exact H1|]. split; [exact H2|exact H4].
Defined.

(** A clip of exactly one frame of 1600 samples cannot be calibrated. *)
Lemma short_clip_has_no_noise_analysis_witness :
  (10 <= 16000)%Z
  /\ exists e,
       CalibrationService.calibrate 0
         (CalibrationService.frame_energies NumPy.sum (List.repeat 0 1600)
                                            16000) = Raised e.
Proof.
  split; [lia|].
  apply (proj1 (short_clip_has_no_noise_analysis NumPy.sum 0
                  (List.repeat 0 1600) 16000 ltac:(lia))).
  vm_compute. discriminate.
Defined.

(** 640 bytes, one full frame, with a detector that always hears speech. *)
Lemma one_frame_recording_is_not_speech_witness :
  (List.length (List.repeat 0%nat 640) <= 640)%nat
  /\ AudioAnalyzer._detect_speech
       (Returned (AudioAnalyzer.vad_verdicts (fun _ => true)
                                             (List.repeat 0%nat 640)))
     = false.
Proof.
  assert (H : (List.length (List.repeat 0%nat 640) <= 640)%nat)
    by (rewrite repeat_length; lia).
  split; [exact H|].
  exact (proj1 (one_frame_recording_is_not_speech (fun _ => true) _ H)).
Defined.



Lemma fast_sound_label_combinations_witness :
  0 <= OptimizedAudioAnalyzer.low_energy door_spectrum
  /\ 0 <= OptimizedAudioAnalyzer.mid_energy door_spectrum
  /\ 0 <= OptimizedAudioAnalyzer.high_energy door_spectrum
  /\ OptimizedAudioAnalyzer._fast_detect_background_sounds
       (Returned door_spectrum) = ["door"].
Proof.
  assert (Hl : 0 <= OptimizedAudioAnalyzer.low_energy door_spectrum)
    by (vm_compute; discriminate).
  assert (Hm : 0 <= OptimizedAudioAnalyzer.mid_energy door_spectrum)
    by (vm_compute; discriminate).
  assert (Hh : 0 <= OptimizedAudioAnalyzer.high_energy door_spectrum)
    by (vm_compute; discriminate).
  repeat (split; [assumption|]).
  apply (proj1 (fast_sound_label_combinations door_spectrum Hl Hm Hh)).
  vm_compute. auto.
Defined.

(** A loud clip at the scenario's thresholds is saved. *)
Lemma analyze_audio_saves_suspicious_clips_witness :
  Main.analyze_audio
    (Some (OptimizedCalibrationService._fast_calculate_thresholds
             (scenario_noise 0.03)))
    (Some "audio/wav")
    (Returned (OptimizedAudioAnalyzer.mkClip 0.04 (Returned [])
                                             (Returned silent_spectrum)))
    (Returned "uploads/saved_audio/audio_high_no_speech_clean.wav")
  = Main.OK
      (Main.mkAnalyzeBody
         (OptimizedAudioAnalyzer.mkAnalysis High false false [])
         true
         (Some "uploads/saved_audio/audio_high_no_speech_clean.wav"))
  /\ exists filepath,
       Main.saved_file_path
         (Main.mkAnalyzeBody
            (OptimizedAudioAnalyzer.mkAnalysis High false false [])
            true
            (Some "uploads/saved_audio/audio_high_no_speech_clean.wav"))
       = Some filepath.
Proof.
  assert (H : Main.analyze_audio
                (Some (OptimizedCalibrationService._fast_calculate_thresholds
                         (scenario_noise 0.03)))
                (Some "audio/wav")
                (Returned (OptimizedAudioAnalyzer.mkClip 0.04 (Returned [])
                             (Returned silent_spectrum)))
                (Returned "uploads/saved_audio/audio_high_no_speech_clean.wav")
              = Main.OK
                  (Main.mkAnalyzeBody
                     (OptimizedAudioAnalyzer.mkAnalysis High false false [])
                     true
                     (Some "uploads/saved_audio/audio_high_no_speech_clean.wav")))
    by (vm_compute; reflexivity).
  split; [exact H|].
  destruct (analyze_audio_saves_suspicious_clips _ _ _ _ _ H)
    as (c & _ & _ & _ & Hpath).
  cbn [Main.file_saved] in Hpath. destruct Hpath as (filepath & _ & Hp).
  now exists filepath.
Defined.

(** Bytes that are not an image, sent as [image/jpeg]. *)
Lemma analyze_face_answers_200_or_never_witness :
  Main.invalid_content_type "image/" (Some "image/jpeg") = false
  /\ Main.analyze_face (Some "image/jpeg") (fun _ => 0) undecodable_frame
                       "u1" ∅
     = (Main.Responds (Main.OK FaceAnalyzer.DecodeError), ∅).
Proof.
  assert (H : Main.invalid_content_type "image/" (Some "image/jpeg") = false)
    by reflexivity.
  split; [exact H|].
  apply (proj2 (analyze_face_answers_200_or_never (Some "image/jpeg")
                  (fun _ => 0) undecodable_frame "u1" ∅ H)).
  reflexivity.
Defined.

(** Three frame energies. *)
Lemma noise_floor_is_below_noise_ceiling_witness :
  exists noise_analysis,
    CalibrationService._analyze_background_noise 0.03 [0.02; 0.01; 0.05]
    = Returned noise_analysis
    /\ noise_floor noise_analysis <= noise_ceiling noise_analysis
    /\ 0.01 <= noise_floor noise_analysis
    /\ noise_ceiling noise_analysis <= 0.05.
Proof.
  destruct (CalibrationService._analyze_background_noise 0.03
              [0.02; 0.01; 0.05]) as [noise_analysis|e] eqn:H;
    [|vm_compute in H; discriminate].
  exists noise_analysis. split; [reflexivity|].
  destruct (noise_floor_is_below_noise_ceiling 0.03 [0.02; 0.01; 0.05]
              noise_analysis 0.01 0.05 H) as (_ & Hle & Hbounds).
  split; [exact Hle|]. apply Hbounds.
  repeat constructor; vm_compute; discriminate.
Defined.

(** The scenario's baseline: a tick at the floor and a tick at the
    ceiling. *)
Lemma calibration_noise_levels_witness :
  0 <= noise_floor (scenario_noise 0.03)
  /\ AudioAnalyzer._analyze_volume 0.01
       (CalibrationService._calculate_thresholds (scenario_noise 0.03))
     <> High
  /\ AudioAnalyzer._analyze_volume 0.05
       (CalibrationService._calculate_thresholds (scenario_noise 0.03))
     = High.
Proof.
  assert (H : 0 <= noise_floor (scenario_noise 0.03))
    by (vm_compute; discriminate).
  split; [exact H|].
  destruct (calibration_noise_levels (scenario_noise 0.03) 0.01 H)
    as [Hquiet Hloud].
  split.
  - apply Hquiet. vm_compute. discriminate.
  - apply Hloud. vm_compute. discriminate.
Defined.


(** A clip at half the scenario's noise floor, silent in speech and
    spectrum. *)
Lemma quiet_clip_is_not_saved_witness :
  exists analysis_result,
    Main.analyze_audio
      (Some (OptimizedCalibrationService._fast_calculate_thresholds
               (scenario_noise 0.03)))
      (Some "audio/wav")
      (Returned (OptimizedAudioAnalyzer.mkClip 0.005 (Returned [])
                                               (Returned silent_spectrum)))
      (Raised "disk full")
    = Main.OK (Main.mkAnalyzeBody analysis_result false None).
Proof.
  destruct (quiet_clip_is_not_saved (scenario_noise 0.03) (Some "audio/wav")
              (OptimizedAudioAnalyzer.mkClip 0.005 (Returned [])
                                             (Returned silent_spectrum))
              silent_spectrum (Raised "disk full"))
    as (analysis_result & H & _);
    try reflexivity; try (vm_compute; discriminate).
  now exists analysis_result.
Defined.

(** On binary64 [0.1 * 16000] and [0.2 * 16000] are exactly 1600 and 3200,
    the frame lengths of the two services at 16 kHz. *)
Example frame_lengths_at_16_kHz :
  (0.1 * 16000 =? 1600)%float = true /\ (0.2 * 16000 =? 3200)%float = true.
Proof. split; reflexivity. Qed.

(** A condition that stays true from 0 s to 62 s alerts at 0 s, 31 s and
    62 s. *)
Example streak_of_a_minute :
  alert_times "u1" "Face not detected" [0; 10; 31; 40; 62] ∅ = [0; 31; 62].
Proof. vm_compute. reflexivity. Qed.
